(** * CRUD route generators over two persistence backends

    A shallow embedding of [fastapi_crudrouter/core/databases.py]
    (the query-builder adapter, [DatabasesCRUDRouter]) and of
    [fastapi_crudrouter/core/tortoise.py] (the active-record adapter,
    [TortoiseCRUDRouter]).

    Every route of the source is an [async] function that talks to a
    backend and either returns a record or raises.  Each method
    [_get_one(self)], [_create(self)], ... returns such a function,
    [route]; here [_get_one self] is that function.  A route is embedded
    as a state-and-exception computation over the backend's state; the
    backend itself (the [databases] connection, the Tortoise model class)
    is an interface, instantiated further down by an in-memory table.

    Route registration, the default prefix and the parsing of request
    arguments belong to the base generator and the framework; they are
    not part of this development. *)

From Stdlib Require Import ZArith.
From stdpp Require Import base option list gmap strings.

Local Open Scope string_scope.

(** ** Python values and dictionaries *)

Inductive value :=
| VNone
| VBool (b : bool)
| VInt (z : Z)
| VStr (s : string).

#[global] Instance value_eq_dec : EqDecision value.
Proof. solve_decision. Defined.

(** Truth value testing, as [if rid:] and [if limit:] perform it. *)
Definition truthy (v : value) : bool :=
  match v with
  | VNone => false
  | VBool b => b
  | VInt z => negb (z =? 0)%Z
  | VStr s => negb (bool_decide (s = EmptyString))
  end.

(** A row, a model instance and the result of [schema.dict()] are all
    mappings from field names to values. *)
Abbreviation row := (gmap string value).

(** [d.get(key)]: the value, or [None] when the key is missing. *)
Definition get (d : row) (key : string) : value := default VNone (d !! key).

(** A pydantic schema instance: its field values (defaults filled in) and
    the names of the fields the caller supplied explicitly. *)
Record BaseModel := {
  __dict__ : row;
  __fields_set__ : gset string;
}.

(** [schema.dict()] *)
Definition dict (schema : BaseModel) : row := __dict__ schema.

(** [schema.dict(exclude={...})] *)
Definition dict_exclude (schema : BaseModel) (exclude : gset string) : row :=
  filter (λ kv, kv.1 ∉ exclude) (__dict__ schema).

(** [schema.dict(exclude_unset=True)] *)
Definition dict_exclude_unset (schema : BaseModel) : row :=
  filter (λ kv, kv.1 ∈ __fields_set__ schema) (__dict__ schema).

(** Modelled from the spec: [_utils.schema_factory], which [__init__]
    calls to build the create schema, is not among the sources.  The data
    model gives its result: "create-schema field set = schema field set
    minus {primary-key field}".  An instance of the create schema thus has
    no field under the key [pk]. *)
Definition create_schema_instance (pk : string) (schema : BaseModel) : Prop :=
  dict schema !! pk = None.

(** The pagination argument of the list routes is itself such a
    dictionary, [{"skip": ..., "limit": ...}]. *)

(** ** Exceptions and the route monad *)

(** What a backend call may raise. *)
Inductive driver_exn :=
| IntegrityError
| OperationalError.

(** What a route may raise.  [NOT_FOUND] is the exception object the two
    adapters import from the package root; [HTTPException] is the
    framework's exception class; [BackendError] is any exception of the
    backend that leaves a route uncaught. *)
Inductive exn :=
| NOT_FOUND
| HTTPException (status_code : Z) (detail : string)
| BackendError (e : driver_exn).

(** Modelled from the spec: the package root, where [NOT_FOUND] is built,
    is not among the sources.  "NotFound is surfaced as a structured error
    with status code 404"; an [HTTPException] carries its own code; any
    other backend failure is "surfaced as 5xx-equivalent". *)
Definition http_status (e : exn) : Z :=
  match e with
  | NOT_FOUND => 404
  | HTTPException status_code _ => status_code
  | BackendError _ => 500
  end.

#[global] Instance driver_exn_eq_dec : EqDecision driver_exn.
Proof. solve_decision. Defined.
#[global] Instance exn_eq_dec : EqDecision exn.
Proof. solve_decision. Defined.

(** A backend call on a backend of state [S]. *)
Definition B (S A : Type) : Type := S → (driver_exn + A) * S.

(** A route body on a backend of state [S]. *)
Definition M (S A : Type) : Type := S → (exn + A) * S.

Definition ret {S A} (a : A) : M S A := λ s, (inr a, s).
Definition raise {S A} (e : exn) : M S A := λ s, (inl e, s).
Definition bind {S A A'} (m : M S A) (k : A → M S A') : M S A' :=
  λ s, match m s with
       | (inr a, s') => k a s'
       | (inl e, s') => (inl e, s')
       end.

(** [await backend_call]: a backend exception becomes an exception of the
    route. *)
Definition await {S A} (c : B S A) : M S A :=
  λ s, match c s with
       | (inr a, s') => (inr a, s')
       | (inl e, s') => (inl (BackendError e), s')
       end.

(** [try: body except Exception: handler] *)
Definition try_except {S A} (body : M S A) (handler : exn → M S A) : M S A :=
  λ s, match body s with
       | (inr a, s') => (inr a, s')
       | (inl e, s') => handler e s'
       end.

Declare Scope route_scope.
Delimit Scope route_scope with route.
Notation "x <- m ;; k" := (bind m (λ x, k))
  (at level 100, m at next level, right associativity) : route_scope.

(** ** An in-memory table

    The rows of one table in insertion order.  Both reference backends
    below keep their data in such a list. *)
Module Rows.

Definition t := list row.

(** The rows a condition selects. *)
Definition matching (cond : row → bool) (rows : t) : t :=
  List.filter cond rows.

(** [OFFSET] then [LIMIT]; [None] is no offset, no limit.  Counts are
    meant not to be negative, as the pagination of the routes has them; a
    negative one is read as zero here, where a real backend may refuse it
    or read it otherwise. *)
Definition window (offset limit : option Z) (rows : t) : t :=
  let skipped := match offset with
                 | Some n => drop (Z.to_nat n) rows
                 | None => rows
                 end in
  match limit with
  | Some n => take (Z.to_nat n) skipped
  | None => skipped
  end.

(** The argument of a [LIMIT] or [OFFSET]: [None] is absent, an integer
    (or a boolean, which Python counts as one) is the count, anything
    else is refused by the backend. *)
Definition count_of (v : value) : driver_exn + option Z :=
  match v with
  | VNone => inr None
  | VInt n => inr (Some n)
  | VBool b => inr (Some (if b then 1 else 0)%Z)
  | VStr _ => inl OperationalError
  end.

Definition int_key (pk : string) (r : row) : Z :=
  match r !! pk with
  | Some (VInt z) => z
  | _ => 0%Z
  end.

(** The key given to a row inserted without one: one more than the
    largest integer key in the table. *)
Definition next_key (pk : string) (rows : t) : Z :=
  (1 + foldr (λ r acc, Z.max (int_key pk r) acc) 0 rows)%Z.

Definition has_key (pk : string) (k : value) (r : row) : bool :=
  bool_decide (r !! pk = Some k).

(** Insert [values] into a table keyed by column [pk]: a row that
    carries no key (or [None]) is given the next one, a key already in
    the table is refused.  The result is the key of the new row. *)
Definition insert_row (pk : string) (values : row) (rows : t)
  : driver_exn + (value * t) :=
  match values !! pk with
  | None | Some VNone =>
      let k := VInt (next_key pk rows) in
      inr (k, (rows ++ [<[pk := k]> values])%list)
  | Some k =>
      if existsb (has_key pk k) rows then inl IntegrityError
      else inr (k, (rows ++ [values])%list)
  end.

(** Overwrite the fields [values] in every selected row; the number of
    rows selected comes with the new table. *)
Definition update_rows (cond : row → bool) (values : row) (rows : t)
  : Z * t :=
  (Z.of_nat (length (matching cond rows)),
   (λ r, if cond r then values ∪ r else r) <$> rows).

(** Remove every selected row; the number of rows removed comes with
    the new table. *)
Definition delete_rows (cond : row → bool) (rows : t) : Z * t :=
  (Z.of_nat (length (matching cond rows)),
   List.filter (λ r, negb (cond r)) rows).

(** A table read through a lagging replica: queries are answered from
    [replica]; inserts, updates and deletes reach [primary].  A row
    already gone from the primary can still be read. *)
Record lagging := {
  replica : t;
  primary : t;
}.

Definition on_replica {A} (run : t → driver_exn + A) : B lagging A :=
  λ s, (run (replica s), s).

Definition on_primary {A} (run : t → (driver_exn + A) * t) : B lagging A :=
  λ s, let '(result, rows') := run (primary s) in
       (result, {| replica := replica s; primary := rows' |}).

End Rows.

(** ** The query-builder adapter: [databases.py] *)
Module Databases.

(** The SQLAlchemy table handle: its name and the names of its
    primary-key columns, [table.primary_key.columns]. *)
Record Table := {
  name : string;
  primary_key : list string;
}.

(** [column == value] *)
Inductive clause :=
| Eq (column : string) (v : value).

(** The query objects the routes build. *)
Inductive query :=
| Select (t : Table) (whereclause : option clause) (limit offset : value)
| Insert (t : Table)
| Update (t : Table) (whereclause : option clause)
| Delete (t : Table) (whereclause : option clause).

(** [table.select()], [table.insert()], [table.update()],
    [table.delete()] *)
Definition table_select (t : Table) : query := Select t None VNone VNone.
Definition table_insert (t : Table) : query := Insert t.
Definition table_update (t : Table) : query := Update t None.
Definition table_delete (t : Table) : query := Delete t None.

(** [query.where(clause)] *)
Definition q_where (q : query) (c : clause) : query :=
  match q with
  | Select t _ l o => Select t (Some c) l o
  | Insert t => Insert t
  | Update t _ => Update t (Some c)
  | Delete t _ => Delete t (Some c)
  end.

(** [query.limit(n)] and [query.offset(n)] *)
Definition q_limit (q : query) (n : value) : query :=
  match q with
  | Select t w _ o => Select t w n o
  | _ => q
  end.

Definition q_offset (q : query) (n : value) : query :=
  match q with
  | Select t w l _ => Select t w l n
  | _ => q
  end.

(** The [databases.core.Database] handle, [self.db]: the three calls the
    routes make, on a connection of state [S]. *)
Class Database (S : Type) := {
  fetch_all : query → B S (list row);
  fetch_one : query → B S (option row);
  execute : query → option row → B S value;
}.

(** The attributes [__init__] sets that the routes read. *)
Record DatabasesCRUDRouter := {
  table : Table;
  _pk : string;
}.

(** [self._pk = table.primary_key.columns.values()[0].name]; indexing an
    empty list of key columns raises.  ([__init__] also derives the key
    type, the prefix and the create schema, which no route body reads.) *)
Definition __init__ (table : Table) : option DatabasesCRUDRouter :=
  match primary_key table with
  | c :: _ => Some {| table := table; _pk := c |}
  | [] => None
  end.

(** [self._pk_col = self.table.c[self._pk]] *)
Definition _pk_col (self : DatabasesCRUDRouter) : string := _pk self.

(** [if model:] on the row [fetch_one] gave: [None] is false, and so is a
    mapping of length zero. *)
Definition found (model : option row) : option row :=
  match model with
  | Some m => if bool_decide (m = ∅) then None else Some m
  | None => None
  end.

Section routes.
Context {S : Type} `{Database S}.
Local Open Scope route_scope.

Definition _get_all (self : DatabasesCRUDRouter) (pagination : row)
  : M S (list row) :=
  let skip := get pagination "skip" in
  let limit := get pagination "limit" in
  let query := q_offset (q_limit (table_select (table self)) limit) skip in
  await (fetch_all query).

Definition _get_one (self : DatabasesCRUDRouter) (item_id : value)
  : M S row :=
  let query := q_where (table_select (table self)) (Eq (_pk_col self) item_id) in
  model <- await (fetch_one query) ;;
  match found model with
  | Some model => ret model
  | None => raise NOT_FOUND
  end.

Definition _create (self : DatabasesCRUDRouter) (schema : BaseModel)
  : M S row :=
  try_except
    (let query := table_insert (table self) in
     rid <- await (execute query (Some (dict schema))) ;;
     ret (dict schema ∪ {[ _pk self := rid ]}))
    (λ _, raise (HTTPException 422 "Key already exists")).

Definition _update (self : DatabasesCRUDRouter) (item_id : value)
  (schema : BaseModel) : M S row :=
  let query := q_where (table_update (table self)) (Eq (_pk_col self) item_id) in
  rid <- await (execute query (Some (dict_exclude schema {[ _pk self ]}))) ;;
  if truthy rid then ret (dict schema ∪ {[ _pk self := rid ]})
  else raise NOT_FOUND.

Definition _delete_all (self : DatabasesCRUDRouter) : M S (list row) :=
  let query := table_delete (table self) in
  _ <- await (execute query None) ;;
  _get_all self {[ "skip" := VInt 0; "limit" := VNone ]}.

Definition _delete_one (self : DatabasesCRUDRouter) (item_id : value)
  : M S row :=
  let query := q_where (table_delete (table self)) (Eq (_pk_col self) item_id) in
  row <- _get_one self item_id ;;
  rid <- await (execute query None) ;;
  if truthy rid then ret row else raise NOT_FOUND.

End routes.

(** *** A reference connection

    One table held in memory.  [execute] answers an insert with the key
    of the new row and an update or delete with the number of rows it
    affected.  A driver that answers otherwise (with the connection's
    last row id, or with nothing) is another instance of [Database]; what
    is proved of [memory] is proved of a driver that counts rows. *)

(** Whether a row satisfies the [where] clause of a query. *)
Definition sat (w : option clause) (r : row) : bool :=
  match w with
  | Some (Eq column v) => bool_decide (r !! column = Some v)
  | None => true
  end.

Definition run_select (q : query) (rows : Rows.t)
  : driver_exn + list row :=
  match q with
  | Select _ w l o =>
      match Rows.count_of o, Rows.count_of l with
      | inr o', inr l' => inr (Rows.window o' l' (Rows.matching (sat w) rows))
      | _, _ => inl OperationalError
      end
  | _ => inl OperationalError
  end.

Definition run_execute (q : query) (values : option row) (rows : Rows.t)
  : (driver_exn + value) * Rows.t :=
  match q with
  | Insert t =>
      match head (primary_key t) with
      | Some pk =>
          match Rows.insert_row pk (default ∅ values) rows with
          | inr (k, rows') => (inr k, rows')
          | inl e => (inl e, rows)
          end
      | None =>
          (inr (VInt (Z.of_nat (length rows) + 1)),
           (rows ++ [default ∅ values])%list)
      end
  | Update _ w =>
      let '(n, rows') := Rows.update_rows (sat w) (default ∅ values) rows in
      (inr (VInt n), rows')
  | Delete _ w =>
      let '(n, rows') := Rows.delete_rows (sat w) rows in
      (inr (VInt n), rows')
  | Select _ _ _ _ => (inr VNone, rows)
  end.

Definition run_select_one (q : query) (rows : Rows.t)
  : driver_exn + option row :=
  match run_select q rows with
  | inr result => inr (head result)
  | inl e => inl e
  end.

#[global] Instance memory : Database Rows.t := {
  fetch_all q := λ rows, (run_select q rows, rows);
  fetch_one q := λ rows, (run_select_one q rows, rows);
  execute q values := run_execute q values;
}.

(** The same connection read through a lagging replica. *)
#[global] Instance lagging : Database Rows.lagging := {
  fetch_all q := Rows.on_replica (run_select q);
  fetch_one q := Rows.on_replica (run_select_one q);
  execute q values := Rows.on_primary (run_execute q values);
}.

End Databases.

(** ** The active-record adapter: [tortoise.py] *)
Module Tortoise.

(** [db_model.describe()], as far as [__init__] reads it. *)
Record FieldDescription := {
  db_column : string;
}.

Record Description := {
  name : string;
  pk_field : FieldDescription;
}.

(** The Tortoise model class handed to the router. *)
Record Model := {
  describe : Description;
}.

(** A query set: the model class it ranges over, the keyword filters
    collected so far, and the offset and limit. *)
Record QuerySet := {
  model : Model;
  filters : list (string * value);
  _offset : value;
  _limit : value;
}.

(** [db_model.all()] *)
Definition all (cls : Model) : QuerySet :=
  {| model := cls; filters := []; _offset := VNone; _limit := VNone |}.

(** [db_model.filter(field=v)] *)
Definition filter_by (cls : Model) (field : string) (v : value) : QuerySet :=
  {| model := cls; filters := [(field, v)]; _offset := VNone; _limit := VNone |}.

(** [query.offset(n)] and [query.limit(n)] *)
Definition offset (q : QuerySet) (n : value) : QuerySet :=
  {| model := model q; filters := filters q; _offset := n; _limit := _limit q |}.

Definition limit (q : QuerySet) (n : value) : QuerySet :=
  {| model := model q; filters := filters q; _offset := _offset q; _limit := n |}.

(** What can be awaited on a database of state [S]: a query set (all its
    instances), [query.first()], [query.update] with keyword arguments,
    [query.delete()] (the last two answer with a row count), and
    [instance.save()] of an instance freshly built from keyword
    arguments, answering with the instance as it is after the save. *)
Class ORM (S : Type) := {
  fetch : QuerySet → B S (list row);
  first : QuerySet → B S (option row);
  update : QuerySet → row → B S Z;
  delete : QuerySet → B S Z;
  save : Model → row → B S row;
}.

(** The attributes [__init__] sets that the routes read. *)
Record TortoiseCRUDRouter := {
  db_model : Model;
  _pk : string;
}.

(** [self._pk = db_model.describe()["pk_field"]["db_column"]].
    ([__init__] also derives the prefix and the create schema, which no
    route body reads.) *)
Definition __init__ (db_model : Model) : TortoiseCRUDRouter :=
  {| db_model := db_model;
     _pk := db_column (pk_field (describe db_model)) |}.

Section routes.
Context {S : Type} `{ORM S}.
Local Open Scope route_scope.

Definition _get_all (self : TortoiseCRUDRouter) (pagination : row)
  : M S (list row) :=
  let skip := get pagination "skip" in
  let limit_ := get pagination "limit" in
  let query := offset (all (db_model self)) skip in
  let query := if truthy limit_ then limit query limit_ else query in
  await (fetch query).

(** A model instance is always true in [if model:]; only [None] is
    false. *)
Definition _get_one (self : TortoiseCRUDRouter) (item_id : value)
  : M S row :=
  model <- await (first (filter_by (db_model self) "id" item_id)) ;;
  match model with
  | Some model => ret model
  | None => raise NOT_FOUND
  end.

Definition _create (self : TortoiseCRUDRouter) (model : BaseModel)
  : M S row :=
  db_model <- await (save (db_model self) (dict model)) ;;
  ret db_model.

Definition _update (self : TortoiseCRUDRouter) (item_id : value)
  (model : BaseModel) : M S row :=
  _ <- await (update (filter_by (db_model self) "id" item_id)
                (dict_exclude_unset model)) ;;
  _get_one self item_id.

Definition _delete_all (self : TortoiseCRUDRouter) : M S (list row) :=
  _ <- await (delete (all (db_model self))) ;;
  _get_all self {[ "skip" := VInt 0; "limit" := VNone ]}.

Definition _delete_one (self : TortoiseCRUDRouter) (item_id : value)
  : M S row :=
  model <- _get_one self item_id ;;
  _ <- await (delete (filter_by (db_model self) "id" item_id)) ;;
  ret model.

End routes.

(** *** A reference database

    The instances of one model held in memory, keyed by the model's
    primary-key column.  Instances are plain rows: a keyword that names
    no field of an instance simply matches nothing, where the real query
    set refuses a keyword that names no field of the model. *)

(** Whether an instance satisfies every keyword filter. *)
Definition sat (kwargs : list (string * value)) (r : row) : bool :=
  forallb (λ kv, bool_decide (r !! kv.1 = Some kv.2)) kwargs.

Definition run_fetch (q : QuerySet) (rows : Rows.t) : driver_exn + list row :=
  match Rows.count_of (_offset q), Rows.count_of (_limit q) with
  | inr o, inr l => inr (Rows.window o l (Rows.matching (sat (filters q)) rows))
  | _, _ => inl OperationalError
  end.

(** The primary key of an instance cannot be rewritten by an update. *)
Definition run_update (q : QuerySet) (kwargs : row) (rows : Rows.t)
  : (driver_exn + Z) * Rows.t :=
  match kwargs !! db_column (pk_field (describe (model q))) with
  | Some _ => (inl IntegrityError, rows)
  | None =>
      let '(n, rows') := Rows.update_rows (sat (filters q)) kwargs rows in
      (inr n, rows')
  end.

Definition run_delete (q : QuerySet) (rows : Rows.t)
  : (driver_exn + Z) * Rows.t :=
  let '(n, rows') := Rows.delete_rows (sat (filters q)) rows in
  (inr n, rows').

Definition run_save (cls : Model) (kwargs : row) (rows : Rows.t)
  : (driver_exn + row) * Rows.t :=
  let pk := db_column (pk_field (describe cls)) in
  match Rows.insert_row pk kwargs rows with
  | inr (k, rows') => (inr (<[pk := k]> kwargs), rows')
  | inl e => (inl e, rows)
  end.

Definition run_first (q : QuerySet) (rows : Rows.t)
  : driver_exn + option row :=
  match run_fetch q rows with
  | inr result => inr (head result)
  | inl e => inl e
  end.

#[global] Instance memory : ORM Rows.t := {
  fetch q := λ rows, (run_fetch q rows, rows);
  first q := λ rows, (run_first q rows, rows);
  update := run_update;
  delete := run_delete;
  save := run_save;
}.

(** The same database read through a lagging replica. *)
#[global] Instance lagging : ORM Rows.lagging := {
  fetch q := Rows.on_replica (run_fetch q);
  first q := Rows.on_replica (run_first q);
  update q kwargs := Rows.on_primary (run_update q kwargs);
  delete q := Rows.on_primary (run_delete q);
  save cls kwargs := Rows.on_primary (run_save cls kwargs);
}.

End Tortoise.

(** ** The default route prefix

    Both constructors fill in the [prefix] keyword before they call the
    base generator: [if "prefix" not in kwargs: kwargs["prefix"] = ...].
    (The [create_schema] keyword is filled in the same way by the next
    statement, which leaves [prefix] alone.) *)
Module Prefix.

(** [s.replace(old, new)] for a non-empty [old], scanning from the left:
    where [old] starts, [new] is put out and the rest of that occurrence
    is skipped ([skip] counts what is left of it). *)
Fixpoint replace_from (old new : string) (skip : nat) (s : string) : string :=
  match s with
  | EmptyString => EmptyString
  | String c s' =>
      match skip with
      | S k => replace_from old new k s'
      | O =>
          if String.prefix old s
          then new ++ replace_from old new (String.length old - 1) s'
          else String c (replace_from old new 0 s')
      end
  end.

(** [s.replace(old, new)] for the empty [old]: [new] goes before every
    character and at the end. *)
Fixpoint interleave (new s : string) : string :=
  match s with
  | EmptyString => new
  | String c s' => new ++ String c (interleave new s')
  end.

Definition replace (s old new : string) : string :=
  match old with
  | EmptyString => interleave new s
  | String _ _ => replace_from old new 0 s
  end.




End Prefix.

(** ** Sample tables, models and payloads *)
Module Sample.

(** A table [potato] with key column [id], and its router. *)
Definition potato_table : Databases.Table :=
  {| Databases.name := "potato"; Databases.primary_key := ["id"] |}.

Definition potato_router : Databases.DatabasesCRUDRouter :=
  {| Databases.table := potato_table; Databases._pk := "id" |}.

(** A model keyed by the default [id] field, and one keyed by a column
    [uid] that also has a plain integer field [id]. *)
Definition Potato : Tortoise.Model :=
  {| Tortoise.describe :=
       {| Tortoise.name := "None.Potato";
          Tortoise.pk_field := {| Tortoise.db_column := "id" |} |} |}.

Definition Carrot : Tortoise.Model :=
  {| Tortoise.describe :=
       {| Tortoise.name := "None.Carrot";
          Tortoise.pk_field := {| Tortoise.db_column := "uid" |} |} |}.

(** Payloads that set only [name]. *)
Definition named (n : string) : BaseModel :=
  {| __dict__ := {[ "name" := VStr n ]}; __fields_set__ := {[ "name" ]} |}.


(** A payload of a caller-supplied create schema that keeps the key. *)
Definition keyed (k : Z) (n : string) : BaseModel :=
  {| __dict__ := {[ "id" := VInt k; "name" := VStr n ]};
     __fields_set__ := {[ "id"; "name" ]} |}.


Definition potatoes : Rows.t :=
  [ {[ "id" := VInt 1; "name" := VStr "a" ]};
    {[ "id" := VInt 2; "name" := VStr "b" ]} ].


Definition carrots : Rows.t :=
  [ {[ "uid" := VInt 5; "id" := VInt 7; "name" := VStr "a" ]};
    {[ "uid" := VInt 1; "id" := VInt 5; "name" := VStr "b" ]} ].

End Sample.

(** * Properties *)

(** Membership in a sample table, row by row. *)
Ltac in_sample Hr :=
  repeat (apply elem_of_cons in Hr as [->|Hr]);
  [vm_compute; congruence .. | by apply elem_of_nil in Hr].

(** ** The in-memory table *)

Lemma matching_nil (cond : row → bool) (rows : Rows.t) :
  (∀ r, r ∈ rows → cond r = false) → Rows.matching cond rows = [].
Proof.
  induction rows as [|r rows IH]; intros Hnone; [done|].
  unfold Rows.matching in *. simpl.
  rewrite (Hnone r) by apply list_elem_of_here.
  apply IH. intros r' Hr'. apply Hnone. by apply list_elem_of_further.
Qed.

Lemma matching_app (cond : row → bool) (rows1 rows2 : Rows.t) :
  Rows.matching cond (rows1 ++ rows2)%list
  = (Rows.matching cond rows1 ++ Rows.matching cond rows2)%list.
Proof. apply List.filter_app. Qed.

Lemma matching_head (cond : row → bool) (rows : Rows.t) (r : row) :
  head (Rows.matching cond rows) = Some r → r ∈ rows ∧ cond r = true.
Proof.
  induction rows as [|r' rows IH]; [done|].
  unfold Rows.matching in *. simpl. destruct (cond r') eqn:Hc.
  - simpl. intros [= ->]. split; [apply list_elem_of_here | done].
  - intros Hhd. destruct (IH Hhd) as [Hin Hr].
    split; [by apply list_elem_of_further | done].
Qed.

Lemma matching_cons_head (cond : row → bool) (rows : Rows.t) (r : row) :
  r ∈ rows → cond r = true →
  ∃ r', head (Rows.matching cond rows) = Some r' ∧ r' ∈ rows ∧ cond r' = true.
Proof.
  intros Hin Hr. destruct (head (Rows.matching cond rows)) as [r'|] eqn:Hhd.
  - exists r'. split; [done|]. by apply matching_head.
  - exfalso. apply head_None in Hhd.
    assert (Hm : In r (Rows.matching cond rows)).
    { apply List.filter_In. split; [by apply list_elem_of_In | done]. }
    rewrite Hhd in Hm. destruct Hm.
Qed.

Lemma next_key_above (pk : string) (rows : Rows.t) (r : row) (z : Z) :
  r ∈ rows → r !! pk = Some (VInt z) → (z < Rows.next_key pk rows)%Z.
Proof.
  unfold Rows.next_key. induction rows as [|r' rows IH]; intros Hin Hz.
  - by apply elem_of_nil in Hin.
  - simpl. apply elem_of_cons in Hin as [->|Hin].
    + unfold Rows.int_key. rewrite Hz. lia.
    + specialize (IH Hin Hz). lia.
Qed.

Lemma next_key_fresh (pk : string) (rows : Rows.t) (r : row) :
  r ∈ rows → Rows.has_key pk (VInt (Rows.next_key pk rows)) r = false.
Proof.
  intros Hin. unfold Rows.has_key. apply bool_decide_eq_false. intros Hk.
  pose proof (next_key_above pk rows r _ Hin Hk). lia.
Qed.


Lemma delete_rows_all (cond : row → bool) (rows : Rows.t) :
  (∀ r, cond r = true) → (Rows.delete_rows cond rows).2 = [].
Proof.
  intros Hall. unfold Rows.delete_rows. simpl.
  induction rows as [|r rows IH]; [done|]. simpl. by rewrite Hall.
Qed.

(** ** The query-builder adapter on any connection *)

Section databases_routes.
Import Databases.
Context {S : Type} `{Database S}.
Implicit Types (self : DatabasesCRUDRouter) (item_id rid : value).
Implicit Types (schema : BaseModel) (s : S).

(** [_get_one] is one [fetch_one] of the select filtered by the key
    column, followed by the truth test on its result. *)
Lemma databases_get_one_unfold self item_id s :
  _get_one self item_id s =
  match fetch_one (q_where (table_select (table self)) (Eq (_pk self) item_id)) s with
  | (inr model, s') =>
      match found model with
      | Some m => (inr m, s')
      | None => (inl NOT_FOUND, s')
      end
  | (inl e, s') => (inl (BackendError e), s')
  end.
Proof.
  unfold _get_one, _pk_col, bind, await, ret, raise.
  destruct (fetch_one _ s) as [[e|model] s']; [done|].
  by destruct (found model).
Qed.

(** [_update] is one [execute] of the update filtered by the key column,
    followed by the truth test on its result. *)
Lemma databases_update_unfold self item_id schema s :
  _update self item_id schema s =
  match execute (q_where (table_update (table self)) (Eq (_pk self) item_id))
          (Some (dict_exclude schema {[ _pk self ]})) s with
  | (inr rid, s') =>
      if truthy rid then (inr (dict schema ∪ {[ _pk self := rid ]}), s')
      else (inl NOT_FOUND, s')
  | (inl e, s') => (inl (BackendError e), s')
  end.
Proof.
  unfold _update, _pk_col, bind, await, ret, raise.
  destruct (execute _ _ s) as [[e|rid] s']; [done|].
  by destruct (truthy rid).
Qed.

(** [_create] is one [execute] of the insert; whatever it raises is
    replaced by the 422 exception. *)
Lemma databases_create_unfold self schema s :
  _create self schema s =
  match execute (table_insert (table self)) (Some (dict schema)) s with
  | (inr rid, s') => (inr (dict schema ∪ {[ _pk self := rid ]}), s')
  | (inl _, s') => (inl (HTTPException 422 "Key already exists"), s')
  end.
Proof.
  unfold _create, try_except, bind, await, ret, raise.
  by destruct (execute _ _ s) as [[e|rid] s'].
Qed.

(** [_delete_one] fetches first, executes the delete second, and lets the
    result of the delete decide. *)
Lemma databases_delete_one_unfold self item_id s :
  _delete_one self item_id s =
  match _get_one self item_id s with
  | (inr fetched, s1) =>
      match execute (q_where (table_delete (table self)) (Eq (_pk self) item_id))
              None s1 with
      | (inr rid, s2) =>
          if truthy rid then (inr fetched, s2) else (inl NOT_FOUND, s2)
      | (inl e, s2) => (inl (BackendError e), s2)
      end
  | (inl e, s1) => (inl e, s1)
  end.
Proof.
  unfold _delete_one, _pk_col, bind at 1.
  destruct (_get_one self item_id s) as [[e|fetched] s1]; [done|].
  unfold bind, await, ret, raise.
  destruct (execute _ _ s1) as [[e|rid] s2]; [done|].
  by destruct (truthy rid).
Qed.

Lemma dict_exclude_lookup schema (exclude : gset string) (k : string) :
  dict_exclude schema exclude !! k =
  if decide (k ∈ exclude) then None else dict schema !! k.
Proof.
  unfold dict_exclude, dict. destruct (decide (k ∈ exclude)) as [Hin|Hout].
  - apply map_lookup_filter_None. right. intros v _. simpl. by intros Hk.
  - destruct (__dict__ schema !! k) as [v|] eqn:Hk.
    + apply map_lookup_filter_Some. by split.
    + apply map_lookup_filter_None. by left.
Qed.

Lemma merged_lookup_key (d : row) (pk : string) rid :
  (d ∪ {[ pk := rid ]}) !! pk = Some (default rid (d !! pk)).
Proof.
  destruct (d !! pk) as [v|] eqn:Hd; simpl.
  - by apply lookup_union_Some_l.
  - rewrite lookup_union_r by done. apply lookup_singleton_eq.
Qed.

Lemma merged_lookup_other (d : row) (pk k : string) rid :
  k ≠ pk → (d ∪ {[ pk := rid ]}) !! k = d !! k.
Proof.
  intros Hne. destruct (d !! k) as [v|] eqn:Hd.
  - by apply lookup_union_Some_l.
  - rewrite lookup_union_r by done. by apply lookup_singleton_ne.
Qed.

(** C4 (amended).  On the query-builder adapter, [update(id, payload)]
    executes one update whose filter is key-column equality with [id] and
    whose values are the payload's fields without the key.  When that
    execution reports zero affected rows (a false result) the route raises
    [NOT_FOUND]; on any true result [rid], a non-zero count among them, it
    returns, with no further backend call, the payload's fields laid over
    [{key: rid}]: what stands under the key is the result of the
    execution, whatever the backend answered, not the key of the row that
    was updated.  Apart from the key, the returned record has exactly the
    payload's fields, so a field the payload lacks is absent from it. *)
Theorem databases_update_spec self item_id schema s :
  let values := dict_exclude schema {[ _pk self ]} in
  let query := q_where (table_update (table self)) (Eq (_pk self) item_id) in
  query = Update (table self) (Some (Eq (_pk self) item_id))
  ∧ values !! _pk self = None
  ∧ (∀ k, k ≠ _pk self → values !! k = dict schema !! k)
  ∧ _update self item_id schema s =
      match execute query (Some values) s with
      | (inr rid, s') =>
          if truthy rid then (inr (dict schema ∪ {[ _pk self := rid ]}), s')
          else (inl NOT_FOUND, s')
      | (inl e, s') => (inl (BackendError e), s')
      end
  ∧ truthy (VInt 0) = false
  ∧ (∀ n, n ≠ 0%Z → truthy (VInt n) = true)
  ∧ (∀ rid k, k ≠ _pk self →
       (dict schema ∪ {[ _pk self := rid ]}) !! k = dict schema !! k).
Proof.
  intros values query. subst values query.
  split; [done|]. split.
  { rewrite dict_exclude_lookup. by rewrite decide_True by set_solver. }
  split.
  { intros k Hk. rewrite dict_exclude_lookup.
    by rewrite decide_False by set_solver. }
  split; [apply databases_update_unfold|].
  split; [done|]. split.
  { intros n Hn. simpl. apply negb_true_iff. by apply Z.eqb_neq. }
  intros rid k Hk. by apply merged_lookup_other.
Qed.

(** C9.  Whenever the query-builder adapter's [update] returns a record,
    that record is the whole payload dictionary laid over
    [{key: result of execute}]: a key field inside the payload wins over
    the result of execute, and without one the key is the result of
    execute.  The path parameter takes no part in it: any other
    [item_id'] whose update executes to the same result returns the same
    record. *)
Theorem databases_update_returned_key self item_id schema s returned s' :
  _update self item_id schema s = (inr returned, s') →
  ∃ rid,
    execute (q_where (table_update (table self)) (Eq (_pk self) item_id))
      (Some (dict_exclude schema {[ _pk self ]})) s = (inr rid, s')
    ∧ returned = dict schema ∪ {[ _pk self := rid ]}
    ∧ (∀ v, dict schema !! _pk self = Some v → returned !! _pk self = Some v)
    ∧ (dict schema !! _pk self = None → returned !! _pk self = Some rid)
    ∧ (∀ item_id' t t',
         execute (q_where (table_update (table self)) (Eq (_pk self) item_id'))
           (Some (dict_exclude schema {[ _pk self ]})) t = (inr rid, t') →
         _update self item_id' schema t = (inr returned, t')).
Proof.
  rewrite databases_update_unfold.
  destruct (execute _ _ s) as [[e|rid] s1] eqn:Hexec; [done|].
  destruct (truthy rid) eqn:Hrid; [|done].
  intros [= <- <-]. exists rid. split; [done|]. split; [done|].
  split; [|split].
  - intros v Hv. by rewrite merged_lookup_key, Hv.
  - intros Hnone. by rewrite merged_lookup_key, Hnone.
  - intros item_id' t t' Hexec'.
    by rewrite databases_update_unfold, Hexec', Hrid.
Qed.

End databases_routes.

(** ** The active-record adapter on any database *)

Section tortoise_routes.
Import Tortoise.
Context {S : Type} `{ORM S}.
Implicit Types (self : TortoiseCRUDRouter) (item_id : value).
Implicit Types (payload : BaseModel) (s : S).

Lemma tortoise_get_one_unfold self item_id s :
  _get_one self item_id s =
  match first (filter_by (db_model self) "id" item_id) s with
  | (inr (Some m), s') => (inr m, s')
  | (inr None, s') => (inl NOT_FOUND, s')
  | (inl e, s') => (inl (BackendError e), s')
  end.
Proof.
  unfold _get_one, bind, await, ret, raise.
  by destruct (first _ s) as [[e|[m|]] s'].
Qed.

Lemma tortoise_update_unfold self item_id payload s :
  _update self item_id payload s =
  match update (filter_by (db_model self) "id" item_id)
          (dict_exclude_unset payload) s with
  | (inr _, s') => _get_one self item_id s'
  | (inl e, s') => (inl (BackendError e), s')
  end.
Proof.
  unfold _update, bind at 1, await.
  by destruct (update _ _ s) as [[e|n] s'].
Qed.

Lemma tortoise_delete_one_unfold self item_id s :
  _delete_one self item_id s =
  match _get_one self item_id s with
  | (inr m, s1) =>
      match delete (filter_by (db_model self) "id" item_id) s1 with
      | (inr _, s2) => (inr m, s2)
      | (inl e, s2) => (inl (BackendError e), s2)
      end
  | (inl e, s1) => (inl e, s1)
  end.
Proof.
  unfold _delete_one, bind at 1.
  destruct (_get_one self item_id s) as [[e|m] s1]; [done|].
  unfold bind, await, ret.
  by destruct (delete _ s1) as [[e|n] s2].
Qed.

(** [_create] awaits the save and nothing else: there is no handler
    around it. *)
Lemma tortoise_create_unfold self payload s :
  _create self payload s =
  match save (db_model self) (dict payload) s with
  | (inr instance, s') => (inr instance, s')
  | (inl e, s') => (inl (BackendError e), s')
  end.
Proof.
  unfold _create, bind, await, ret.
  by destruct (save _ _ s) as [[e|instance] s'].
Qed.

(** The routes of the active-record adapter never read [_pk]. *)
Lemma tortoise_routes_ignore_pk (cls : Model) (pk pk' : string) :
  let self := {| db_model := cls; _pk := pk |} in
  let self' := {| db_model := cls; _pk := pk' |} in
  _get_one (S:=S) self = _get_one self'
  ∧ _update (S:=S) self = _update self'
  ∧ _delete_one (S:=S) self = _delete_one self'.
Proof. done. Qed.

(** C10.  In the active-record adapter's [delete_one], [NOT_FOUND] is
    raised exactly when the initial [get_one] raises it, which is exactly
    when its query finds no instance.  Once [get_one] has returned an
    instance, the row count the delete answers with is not looked at: the
    instance fetched beforehand is returned for every count, zero
    included. *)
Theorem tortoise_delete_one_not_found_iff self item_id s :
  ((_delete_one self item_id s).1 = inl NOT_FOUND
   ↔ (_get_one self item_id s).1 = inl NOT_FOUND)
  ∧ ((_get_one self item_id s).1 = inl NOT_FOUND
     ↔ (first (filter_by (db_model self) "id" item_id) s).1 = inr None)
  ∧ (∀ m s1 n s2,
       _get_one self item_id s = (inr m, s1) →
       delete (filter_by (db_model self) "id" item_id) s1 = (inr n, s2) →
       _delete_one self item_id s = (inr m, s2)).
Proof.
  split; [|split].
  - rewrite tortoise_delete_one_unfold.
    destruct (_get_one self item_id s) as [[e|m] s1]; simpl; [done|].
    destruct (delete _ s1) as [[e|n] s2]; simpl; split; discriminate.
  - rewrite tortoise_get_one_unfold.
    destruct (first _ s) as [[e|[m|]] s']; simpl; split; congruence.
  - intros m s1 n s2 Hget Hdel.
    by rewrite tortoise_delete_one_unfold, Hget, Hdel.
Qed.

Lemma get_two_keys (k1 k2 : string) (v1 v2 : value) :
  k1 ≠ k2 →
  get {[ k1 := v1; k2 := v2 ]} k1 = v1 ∧ get {[ k1 := v1; k2 := v2 ]} k2 = v2.
Proof.
  intros Hne. unfold get. split.
  - by rewrite lookup_insert_eq.
  - rewrite lookup_insert_ne by done. by rewrite lookup_singleton_eq.
Qed.

(** The list route on any database: the offset is set on every query, the
    limit only when it is true. *)
Lemma tortoise_get_all_unfold self (pagination : row) s :
  _get_all self pagination s =
  await (fetch (if truthy (get pagination "limit")
                then limit (offset (all (db_model self)) (get pagination "skip"))
                       (get pagination "limit")
                else offset (all (db_model self)) (get pagination "skip"))) s.
Proof. done. Qed.

Lemma tortoise_get_all_falsy_limit self (skip falsy : value) s :
  truthy falsy = false →
  _get_all self {[ "skip" := skip; "limit" := falsy ]} s
  = await (fetch (offset (all (db_model self)) skip)) s.
Proof.
  intros Hfalsy. rewrite tortoise_get_all_unfold.
  destruct (get_two_keys "skip" "limit" skip falsy) as [-> ->]; [done|].
  by rewrite Hfalsy.
Qed.

End tortoise_routes.

(** ** The query-builder adapter on the reference connection *)

Section databases_memory.
Import Databases.
Implicit Types (self : DatabasesCRUDRouter) (item_id : value).
Implicit Types (schema : BaseModel) (rows : Rows.t).

Lemma sat_key_false (pk : string) item_id rows :
  (∀ r, r ∈ rows → r !! pk ≠ Some item_id) →
  ∀ r, r ∈ rows → sat (Some (Eq pk item_id)) r = false.
Proof. intros Habsent r Hr. apply bool_decide_eq_false. by apply Habsent. Qed.

Lemma memory_get_one self item_id rows :
  _get_one self item_id rows =
  match found (head (Rows.matching (sat (Some (Eq (_pk self) item_id))) rows)) with
  | Some m => (inr m, rows)
  | None => (inl NOT_FOUND, rows)
  end.
Proof. by rewrite databases_get_one_unfold. Qed.

(** A key no row carries: the three keyed routes raise [NOT_FOUND]. *)
Lemma memory_get_one_absent self item_id rows :
  (∀ r, r ∈ rows → r !! _pk self ≠ Some item_id) →
  _get_one self item_id rows = (inl NOT_FOUND, rows).
Proof.
  intros Habsent. rewrite memory_get_one.
  by rewrite (matching_nil _ rows (sat_key_false _ _ _ Habsent)).
Qed.

Lemma memory_update_absent self item_id schema rows :
  (∀ r, r ∈ rows → r !! _pk self ≠ Some item_id) →
  (_update self item_id schema rows).1 = inl NOT_FOUND.
Proof.
  intros Habsent. rewrite databases_update_unfold. simpl.
  by rewrite (matching_nil _ rows (sat_key_false _ _ _ Habsent)).
Qed.

Lemma memory_delete_one_absent self item_id rows :
  (∀ r, r ∈ rows → r !! _pk self ≠ Some item_id) →
  _delete_one self item_id rows = (inl NOT_FOUND, rows).
Proof.
  intros Habsent. rewrite databases_delete_one_unfold.
  by rewrite memory_get_one_absent.
Qed.

Lemma keyed_row_nonempty (pk : string) (k : value) (r : row) :
  r !! pk = Some k → found (Some r) = Some r.
Proof.
  intros Hk. unfold found. rewrite bool_decide_eq_false_2; [done|].
  intros ->. by rewrite lookup_empty in Hk.
Qed.

(** A key some row carries: [delete_one] answers with the first row under
    that key, as the table held it before the call, and leaves the table
    without the rows under that key. *)
Lemma memory_delete_one_present self item_id rows r :
  r ∈ rows → r !! _pk self = Some item_id →
  ∃ fetched,
    head (Rows.matching (sat (Some (Eq (_pk self) item_id))) rows) = Some fetched
    ∧ fetched ∈ rows ∧ fetched !! _pk self = Some item_id
    ∧ _delete_one self item_id rows
      = (inr fetched,
         List.filter (λ r, negb (sat (Some (Eq (_pk self) item_id)) r)) rows).
Proof.
  intros Hin Hk.
  destruct (matching_cons_head (sat (Some (Eq (_pk self) item_id))) rows r Hin)
    as (fetched & Hhd & Hfin & Hsat); [by apply bool_decide_eq_true|].
  apply bool_decide_eq_true in Hsat.
  exists fetched. do 3 (split; [done|]).
  rewrite databases_delete_one_unfold, memory_get_one, Hhd.
  rewrite (keyed_row_nonempty _ _ _ Hsat). simpl.
  assert (Hlen : Rows.matching (sat (Some (Eq (_pk self) item_id))) rows ≠ []).
  { intros Hnil. by rewrite Hnil in Hhd. }
  destruct (Rows.matching _ rows) as [|x xs] eqn:Hm; [done|]. simpl.
  replace (Z.of_nat (Datatypes.S (length xs)) =? 0)%Z with false; [done|].
  symmetry. apply Z.eqb_neq. lia.
Qed.


End databases_memory.

(** ** The active-record adapter on the reference database *)

Section tortoise_memory.
Import Tortoise.
Implicit Types (self : TortoiseCRUDRouter) (item_id : value).
Implicit Types (payload : BaseModel) (rows : Rows.t).

Lemma matching_all (rows : Rows.t) : Rows.matching (sat []) rows = rows.
Proof.
  unfold Rows.matching. induction rows as [|r rows IH]; [done|].
  simpl. by rewrite IH.
Qed.

Lemma tortoise_memory_get_one self item_id rows :
  _get_one self item_id rows =
  match head (Rows.matching (sat [("id", item_id)]) rows) with
  | Some m => (inr m, rows)
  | None => (inl NOT_FOUND, rows)
  end.
Proof.
  rewrite tortoise_get_one_unfold. simpl. unfold run_fetch. simpl.
  by destruct (head _).
Qed.

Lemma sat_id (item_id : value) (r : row) :
  sat [("id", item_id)] r = bool_decide (r !! "id" = Some item_id).
Proof. unfold sat. simpl. by rewrite andb_true_r. Qed.

(** For a router whose derived key column is the field [id], a key no
    instance carries makes the three keyed routes raise [NOT_FOUND] (the
    update one when its payload leaves the key field unset, the reference
    database refusing to rewrite a key). *)
Lemma tortoise_memory_absent self item_id payload rows :
  _pk self = "id" →
  (∀ r, r ∈ rows → r !! _pk self ≠ Some item_id) →
  _get_one self item_id rows = (inl NOT_FOUND, rows)
  ∧ (dict_exclude_unset payload
       !! db_column (pk_field (describe (db_model self))) = None →
     (_update self item_id payload rows).1 = inl NOT_FOUND)
  ∧ _delete_one self item_id rows = (inl NOT_FOUND, rows).
Proof.
  intros Hpk Habsent. rewrite Hpk in Habsent.
  assert (Hnone : ∀ rows', (∀ r, r ∈ rows' → r !! "id" ≠ Some item_id) →
                  Rows.matching (sat [("id", item_id)]) rows' = []).
  { intros rows' Hrows'. apply matching_nil. intros r Hr. rewrite sat_id.
    apply bool_decide_eq_false. by apply Hrows'. }
  assert (Hget : _get_one self item_id rows = (inl NOT_FOUND, rows)).
  { by rewrite tortoise_memory_get_one, Hnone. }
  split; [done|]. split.
  - intros Hunset. rewrite tortoise_update_unfold. simpl. unfold run_update.
    simpl. rewrite Hunset.
    simpl. rewrite tortoise_memory_get_one, Hnone; [done|].
    intros r Hr. apply list_elem_of_fmap in Hr as (r0 & -> & Hr0).
    rewrite andb_true_r, bool_decide_eq_false_2 by by apply Habsent.
    by apply Habsent.
  - by rewrite tortoise_delete_one_unfold, Hget.
Qed.

(** For such a router and a key some instance carries, [delete_one]
    answers with the first instance under that key as it was before the
    call. *)
Lemma tortoise_memory_delete_one_present self item_id rows r :
  _pk self = "id" →
  r ∈ rows → r !! _pk self = Some item_id →
  ∃ fetched,
    head (Rows.matching (sat [("id", item_id)]) rows) = Some fetched
    ∧ fetched ∈ rows ∧ fetched !! _pk self = Some item_id
    ∧ _delete_one self item_id rows
      = (inr fetched, List.filter (λ r, negb (sat [("id", item_id)] r)) rows).
Proof.
  intros Hpk Hin Hk. rewrite Hpk in *.
  destruct (matching_cons_head (sat [("id", item_id)]) rows r Hin)
    as (fetched & Hhd & Hfin & Hsat).
  { rewrite sat_id. by apply bool_decide_eq_true. }
  rewrite sat_id in Hsat. apply bool_decide_eq_true in Hsat.
  exists fetched. do 3 (split; [done|]).
  by rewrite tortoise_delete_one_unfold, tortoise_memory_get_one, Hhd.
Qed.

(** After an update of the selected rows, the first row the same
    condition selects carries every field of the update. *)
Lemma updated_head (cond : row → bool) (kwargs : row) (rows : Rows.t) (m : row) :
  head (Rows.matching cond ((λ r, if cond r then kwargs ∪ r else r) <$> rows))
  = Some m →
  ∀ f v, kwargs !! f = Some v → m !! f = Some v.
Proof.
  induction rows as [|r rows IH]; [done|].
  rewrite fmap_cons. unfold Rows.matching in *. simpl.
  destruct (cond r) eqn:Hr.
  - destruct (cond (kwargs ∪ r)) eqn:Hr'.
    + simpl. intros [= <-] f v Hf. by apply lookup_union_Some_l.
    + apply IH.
  - rewrite Hr. apply IH.
Qed.

(** The record [update] returns carries every field the payload set. *)
Lemma tortoise_memory_update_returned self item_id payload rows returned rows' :
  _update self item_id payload rows = (inr returned, rows') →
  ∀ f v, dict_exclude_unset payload !! f = Some v → returned !! f = Some v.
Proof.
  rewrite tortoise_update_unfold. simpl. unfold run_update.
  destruct (dict_exclude_unset payload !! _) as [v|]; [done|]. simpl.
  rewrite tortoise_memory_get_one.
  destruct (head _) as [m|] eqn:Hhd; [|done].
  intros [= <- <-].
  by apply (updated_head (sat [("id", item_id)]) _ rows).
Qed.

End tortoise_memory.

(** ** Deleting everything, listing *)

(** C6.  On both adapters [delete_all] is the delete of every record
    followed by the list route called with [skip = 0] and [limit = None],
    whose result it returns.  On the reference backends, where nobody else
    writes, it therefore returns the empty list and leaves an empty table,
    on which the same list call again returns the empty list. *)
Theorem delete_all_then_list_empty :
  (∀ S (db : Databases.Database S) (self : Databases.DatabasesCRUDRouter),
     Databases._delete_all self =
     bind (await (Databases.execute
                    (Databases.table_delete (Databases.table self)) None))
       (λ _, Databases._get_all self {[ "skip" := VInt 0; "limit" := VNone ]}))
  ∧ (∀ S (orm : Tortoise.ORM S) (self : Tortoise.TortoiseCRUDRouter),
       Tortoise._delete_all self =
       bind (await (Tortoise.delete (Tortoise.all (Tortoise.db_model self))))
         (λ _, Tortoise._get_all self {[ "skip" := VInt 0; "limit" := VNone ]}))
  ∧ (∀ (self : Databases.DatabasesCRUDRouter) (rows : Rows.t),
       Databases._delete_all self rows = (inr [], [])
       ∧ Databases._get_all self {[ "skip" := VInt 0; "limit" := VNone ]}
           ([] : Rows.t)
         = (inr [], []))
  ∧ (∀ (self : Tortoise.TortoiseCRUDRouter) (rows : Rows.t),
       Tortoise._delete_all self rows = (inr [], [])
       ∧ Tortoise._get_all self {[ "skip" := VInt 0; "limit" := VNone ]}
           ([] : Rows.t)
         = (inr [], [])).
Proof.
  split; [intros; reflexivity|]. split; [intros; reflexivity|]. split.
  - intros self rows. split; [|reflexivity].
    pose proof (delete_rows_all (Databases.sat None) rows (λ _, eq_refl)) as Hall.
    unfold Databases._delete_all, bind, await. simpl in *.
    by rewrite Hall.
  - intros self rows. split; [|reflexivity].
    pose proof (delete_rows_all (Tortoise.sat []) rows (λ _, eq_refl)) as Hall.
    unfold Tortoise._delete_all, bind, await. simpl in *.
    by rewrite Hall.
Qed.

(** C7.  The active-record adapter's list route sets the offset on every
    query and the limit only when the limit is true.  A limit of [0] thus
    builds the very query a limit of [None] builds, and on every database
    the two calls agree; on the reference database both return every
    instance after the first [skip], whereas a positive limit cuts that
    list. *)
Theorem tortoise_list_limit_only_when_truthy :
  (∀ S (orm : Tortoise.ORM S) (self : Tortoise.TortoiseCRUDRouter)
     (pagination : row) (s : S),
     ∃ query,
       Tortoise._get_all self pagination s = await (Tortoise.fetch query) s
       ∧ Tortoise._offset query = get pagination "skip"
       ∧ Tortoise._limit query
         = (if truthy (get pagination "limit") then get pagination "limit"
            else VNone)
       ∧ Tortoise.filters query = [])
  ∧ (∀ S (orm : Tortoise.ORM S) (self : Tortoise.TortoiseCRUDRouter)
       (skip : value) (s : S),
       Tortoise._get_all self {[ "skip" := skip; "limit" := VInt 0 ]} s
       = Tortoise._get_all self {[ "skip" := skip; "limit" := VNone ]} s)
  ∧ (∀ (self : Tortoise.TortoiseCRUDRouter) (skip : Z) (rows : Rows.t),
       Tortoise._get_all self {[ "skip" := VInt skip; "limit" := VInt 0 ]} rows
       = (inr (drop (Z.to_nat skip) rows), rows)
       ∧ Tortoise._get_all self {[ "skip" := VInt skip; "limit" := VNone ]} rows
         = (inr (drop (Z.to_nat skip) rows), rows))
  ∧ (∀ (self : Tortoise.TortoiseCRUDRouter) (skip : Z) (n : positive)
       (rows : Rows.t),
       Tortoise._get_all self
         {[ "skip" := VInt skip; "limit" := VInt (Z.pos n) ]} rows
       = (inr (take (Pos.to_nat n) (drop (Z.to_nat skip) rows)), rows)).
Proof.
  split; [|split; [|split]].
  - intros S orm self pagination s. rewrite tortoise_get_all_unfold.
    destruct (truthy (get pagination "limit")); eexists; by split.
  - intros S orm self skip s.
    by rewrite !tortoise_get_all_falsy_limit.
  - intros self skip rows.
    rewrite !tortoise_get_all_falsy_limit by done.
    unfold await. simpl. unfold Tortoise.run_fetch. simpl.
    by rewrite matching_all.
  - intros self skip n rows. rewrite tortoise_get_all_unfold.
    destruct (get_two_keys "skip" "limit" (VInt skip) (VInt (Z.pos n)))
      as [-> ->]; [done|].
    unfold await. simpl. unfold Tortoise.run_fetch. simpl.
    by rewrite matching_all.
Qed.

(** ** Runs on the sample data *)

(** C1 (failing input).  The specification asks [NOT_FOUND] of [get_one], [update]
    and [delete_one] for every key value no record carries.  The
    active-record routes look the key up in the field [id] whatever the
    model's key column is: for the model [Carrot], keyed by [uid], no
    instance has key 7, yet [get_one 7] answers with the instance whose
    plain field [id] is 7, [update 7] rewrites and returns it, and
    [delete_one 7] deletes and returns it. *)
Theorem tortoise_get_one_absent_key_answers :
  let self := Tortoise.__init__ Sample.Carrot in
  Tortoise._pk self = "uid"
  ∧ existsb (Rows.has_key (Tortoise._pk self) (VInt 7)) Sample.carrots = false
  ∧ Tortoise._get_one self (VInt 7) Sample.carrots
    = (inr {[ "uid" := VInt 5; "id" := VInt 7; "name" := VStr "a" ]},
       Sample.carrots)
  ∧ Tortoise._update self (VInt 7) (Sample.named "z") Sample.carrots
    = (inr {[ "uid" := VInt 5; "id" := VInt 7; "name" := VStr "z" ]},
       [ {[ "uid" := VInt 5; "id" := VInt 7; "name" := VStr "z" ]};
         {[ "uid" := VInt 1; "id" := VInt 5; "name" := VStr "b" ]} ])
  ∧ Tortoise._delete_one self (VInt 7) Sample.carrots
    = (inr {[ "uid" := VInt 5; "id" := VInt 7; "name" := VStr "a" ]},
       [ {[ "uid" := VInt 1; "id" := VInt 5; "name" := VStr "b" ]} ]).
Proof. repeat split; vm_compute; reflexivity. Qed.

(** C2 (failing input).  The specification asks the 422 "Key already
    exists" exception of [create] on either adapter whenever the insert
    fails.
    With a key already in the table, the query-builder route raises it;
    the active-record route has no handler and lets the backend's own
    exception through, as it does on every backend. *)
Theorem tortoise_create_error_uncaught :
  Tortoise.save Sample.Potato (dict (Sample.keyed 1 "b")) Sample.potatoes
  = (inl IntegrityError, Sample.potatoes)
  ∧ Tortoise._create (Tortoise.__init__ Sample.Potato) (Sample.keyed 1 "b")
      Sample.potatoes
    = (inl (BackendError IntegrityError), Sample.potatoes)
  ∧ http_status (BackendError IntegrityError) ≠ 422%Z
  ∧ Databases._create Sample.potato_router (Sample.keyed 1 "b") Sample.potatoes
    = (inl (HTTPException 422 "Key already exists"), Sample.potatoes)
  ∧ (∀ S (orm : Tortoise.ORM S) (self : Tortoise.TortoiseCRUDRouter)
       (payload : BaseModel) (s : S),
       Tortoise._create self payload s =
       match Tortoise.save (Tortoise.db_model self) (dict payload) s with
       | (inr instance, s') => (inr instance, s')
       | (inl e, s') => (inl (BackendError e), s')
       end).
Proof.
  split; [vm_compute; reflexivity|]. split; [vm_compute; reflexivity|].
  split; [vm_compute; congruence|]. split; [vm_compute; reflexivity|].
  intros S orm self payload s. apply tortoise_create_unfold.
Qed.

(** C3 (failing input).  The specification asks [get_one] of the
    active-record adapter to filter on the key column derived at
    construction.  For
    [Carrot] that column is [uid] and the instance with [uid = 5] is the
    first of the table, yet [get_one 5] filters on [id] and answers with
    the instance whose [uid] is 1.  On every backend and for every model
    the query it awaits is the filter on the field [id]. *)
Theorem tortoise_get_one_filters_on_id :
  let self := Tortoise.__init__ Sample.Carrot in
  Tortoise._pk self = "uid"
  ∧ head (Rows.matching (Rows.has_key (Tortoise._pk self) (VInt 5))
            Sample.carrots)
    = Some {[ "uid" := VInt 5; "id" := VInt 7; "name" := VStr "a" ]}
  ∧ Tortoise._get_one self (VInt 5) Sample.carrots
    = (inr {[ "uid" := VInt 1; "id" := VInt 5; "name" := VStr "b" ]},
       Sample.carrots)
  ∧ (∀ S (orm : Tortoise.ORM S) (self : Tortoise.TortoiseCRUDRouter)
       (item_id : value) (s : S),
       Tortoise._get_one self item_id s =
       match Tortoise.first
               (Tortoise.filter_by (Tortoise.db_model self) "id" item_id) s with
       | (inr (Some m), s') => (inr m, s')
       | (inr None, s') => (inl NOT_FOUND, s')
       | (inl e, s') => (inl (BackendError e), s')
       end).
Proof.
  split; [vm_compute; reflexivity|]. split; [vm_compute; reflexivity|].
  split; [vm_compute; reflexivity|].
  intros S orm self item_id s. apply tortoise_get_one_unfold.
Qed.

(** C5 (failing input).  The specification asks [delete_one] to return
    the record for every key present.  [Carrot] has an instance with key [uid = 1],
    but no instance has [id = 1]: the active-record [delete_one 1] raises
    [NOT_FOUND] and deletes nothing. *)
Theorem tortoise_delete_one_present_key_not_found :
  let self := Tortoise.__init__ Sample.Carrot in
  existsb (Rows.has_key (Tortoise._pk self) (VInt 1)) Sample.carrots = true
  ∧ Tortoise._delete_one self (VInt 1) Sample.carrots
    = (inl NOT_FOUND, Sample.carrots).
Proof. split; vm_compute; reflexivity. Qed.

(** The query-builder [delete_one] on a lagging replica: the fetch still
    finds the row, the delete reports zero rows, and the route raises
    [NOT_FOUND]. *)
Lemma databases_delete_one_stale_fetch :
  let s := {| Rows.replica := Sample.potatoes; Rows.primary := [] |} in
  Databases._get_one Sample.potato_router (VInt 1) s
  = (inr {[ "id" := VInt 1; "name" := VStr "a" ]}, s)
  ∧ Databases.execute
      (Databases.Delete Sample.potato_table (Some (Databases.Eq "id" (VInt 1))))
      None s
    = (inr (VInt 0), s)
  ∧ Databases._delete_one Sample.potato_router (VInt 1) s = (inl NOT_FOUND, s).
Proof. repeat split; vm_compute; reflexivity. Qed.

(** ** Round trips *)

(** On the reference connection an insert without a key always succeeds,
    the new row taking the next key. *)
Lemma memory_create_keyless (tbl : Databases.Table)
    (self : Databases.DatabasesCRUDRouter) (schema : BaseModel) (rows : Rows.t) :
  Databases.__init__ tbl = Some self →
  create_schema_instance (Databases._pk self) schema →
  let k := VInt (Rows.next_key (Databases._pk self) rows) in
  Databases._create self schema rows
  = (inr (dict schema ∪ {[ Databases._pk self := k ]}),
     (rows ++ [<[Databases._pk self := k]> (dict schema)])%list).
Proof.
  intros Hinit Hkeyless. unfold Databases.__init__ in Hinit.
  destruct (Databases.primary_key tbl) as [|pk pks] eqn:Hpk; [done|].
  injection Hinit as <-. simpl in *.
  rewrite databases_create_unfold. simpl. rewrite Hpk. simpl.
  unfold Rows.insert_row. by rewrite Hkeyless.
Qed.

(** On the reference database an update of an instance that is there, by
    a payload that sets neither the filtered field nor the key column,
    returns a record. *)
Lemma tortoise_memory_update_returns (self : Tortoise.TortoiseCRUDRouter)
    (item_id : value) (payload : BaseModel) (rows : Rows.t) (r : row) :
  r ∈ rows → r !! "id" = Some item_id →
  dict_exclude_unset payload !! "id" = None →
  dict_exclude_unset payload
    !! Tortoise.db_column
         (Tortoise.pk_field (Tortoise.describe (Tortoise.db_model self))) = None →
  ∃ returned rows',
    Tortoise._update self item_id payload rows = (inr returned, rows').
Proof.
  intros Hin Hid Hno_id Hno_key.
  set (kwargs := dict_exclude_unset payload) in *.
  set (cond := Tortoise.sat [("id", item_id)]).
  assert (Hupd : Tortoise._update self item_id payload rows
                 = Tortoise._get_one self item_id
                     ((λ r0, if cond r0 then kwargs ∪ r0 else r0) <$> rows)).
  { rewrite tortoise_update_unfold. fold kwargs.
    change (Tortoise.update ?q kwargs rows)
      with (Tortoise.run_update q kwargs rows).
    unfold Tortoise.run_update. cbn [Tortoise.model Tortoise.filter_by].
    by rewrite Hno_key. }
  rewrite Hupd, tortoise_memory_get_one.
  assert (Hsat : cond r = true).
  { unfold cond. rewrite sat_id. by apply bool_decide_eq_true. }
  assert (Hsat' : cond (kwargs ∪ r) = true).
  { unfold cond. rewrite sat_id. apply bool_decide_eq_true.
    by rewrite lookup_union_r. }
  destruct (matching_cons_head cond
              ((λ r0, if cond r0 then kwargs ∪ r0 else r0) <$> rows)
              (kwargs ∪ r)) as (m & Hhd & _); [|done|].
  { apply list_elem_of_fmap. exists r. by rewrite Hsat. }
  fold cond. rewrite Hhd. by eexists _, _.
Qed.

(** ** Instances on the sample data *)

Lemma databases_update_spec_witness :
  let self := Sample.potato_router in
  let schema := Sample.named "c" in
  dict_exclude schema {[ "id" ]} !! "id" = None
  ∧ dict_exclude schema {[ "id" ]} !! "name" = Some (VStr "c")
  ∧ Databases._update self (VInt 2) schema Sample.potatoes
    = (inr {[ "id" := VInt 1; "name" := VStr "c" ]},
       [ {[ "id" := VInt 1; "name" := VStr "a" ]};
         {[ "id" := VInt 2; "name" := VStr "c" ]} ])
  ∧ Databases._update self (VInt 99) schema Sample.potatoes
    = (inl NOT_FOUND, Sample.potatoes)
  ∧ ({[ "id" := VInt 1; "name" := VStr "c" ]} : row) !! "color" = None.
Proof.
  intros self schema.
  destruct (databases_update_spec self (VInt 2) schema Sample.potatoes)
    as (_ & Hkey & Hother & Hrun & _ & _ & Hfields).
  destruct (databases_update_spec self (VInt 99) schema Sample.potatoes)
    as (_ & _ & _ & Hrun' & _ & _ & _).
  split; [exact Hkey|].
  split; [refine (eq_trans (Hother "name" _) _); [discriminate | reflexivity]|].
  split; [rewrite Hrun; vm_compute; reflexivity|].
  split; [rewrite Hrun'; vm_compute; reflexivity|].
  change (({[ "id" := VInt 1; "name" := VStr "c" ]} : row) !! "color")
    with ((dict schema ∪ {[ Databases._pk self := VInt 1 ]}) !! "color").
  rewrite Hfields; [reflexivity | discriminate].
Defined.

Lemma databases_update_returned_key_witness :
  let self := Sample.potato_router in
  let schema := Sample.named "c" in
  let returned : row := {[ "id" := VInt 1; "name" := VStr "c" ]} in
  let s' : Rows.t :=
    [ {[ "id" := VInt 1; "name" := VStr "a" ]};
      {[ "id" := VInt 2; "name" := VStr "c" ]} ] in
  Databases._update self (VInt 2) schema Sample.potatoes = (inr returned, s')
  ∧ ∃ rid,
      Databases.execute
        (Databases.q_where (Databases.table_update (Databases.table self))
           (Databases.Eq (Databases._pk self) (VInt 2)))
        (Some (dict_exclude schema {[ Databases._pk self ]})) Sample.potatoes
      = (inr rid, s')
      ∧ returned = dict schema ∪ {[ Databases._pk self := rid ]}
      ∧ (∀ v, dict schema !! Databases._pk self = Some v →
              returned !! Databases._pk self = Some v)
      ∧ (dict schema !! Databases._pk self = None →
         returned !! Databases._pk self = Some rid)
      ∧ (∀ item_id' (t t' : Rows.t),
           Databases.execute
             (Databases.q_where (Databases.table_update (Databases.table self))
                (Databases.Eq (Databases._pk self) item_id'))
             (Some (dict_exclude schema {[ Databases._pk self ]})) t
           = (inr rid, t') →
           Databases._update self item_id' schema t = (inr returned, t')).
Proof.
  intros self schema returned s'.
  assert (Hrun : Databases._update self (VInt 2) schema Sample.potatoes
                 = (inr returned, s')) by (vm_compute; reflexivity).
  split; [exact Hrun|].
  exact (databases_update_returned_key self (VInt 2) schema Sample.potatoes
           returned s' Hrun).
Defined.

Lemma tortoise_delete_one_not_found_iff_witness :
  let self := Tortoise.__init__ Sample.Potato in
  let s := {| Rows.replica := Sample.potatoes; Rows.primary := [] |} in
  let m : row := {[ "id" := VInt 1; "name" := VStr "a" ]} in
  Tortoise._get_one self (VInt 1) s = (inr m, s)
  ∧ Tortoise.delete (Tortoise.filter_by (Tortoise.db_model self) "id" (VInt 1)) s
    = (inr 0%Z, s)
  ∧ Tortoise._delete_one self (VInt 1) s = (inr m, s).
Proof.
  intros self s m.
  assert (Hget : Tortoise._get_one self (VInt 1) s = (inr m, s))
    by (vm_compute; reflexivity).
  assert (Hdel : Tortoise.delete
                   (Tortoise.filter_by (Tortoise.db_model self) "id" (VInt 1)) s
                 = (inr 0%Z, s)) by (vm_compute; reflexivity).
  split; [exact Hget|]. split; [exact Hdel|].
  exact (proj2 (proj2 (tortoise_delete_one_not_found_iff self (VInt 1) s))
           m s 0%Z s Hget Hdel).
Defined.

(** * Further properties of the routes *)

(** ** More on the in-memory table *)

Lemma filter_all_kept (cond : row → bool) (rows : Rows.t) :
  (∀ r, r ∈ rows → cond r = true) → List.filter cond rows = rows.
Proof.
  induction rows as [|r rows IH]; intros Hall; [done|]. simpl.
  rewrite (Hall r) by apply list_elem_of_here. f_equal.
  apply IH. intros r' Hr'. apply Hall. by apply list_elem_of_further.
Qed.

Lemma update_rows_none (cond : row → bool) (values : row) (rows : Rows.t) :
  (∀ r, r ∈ rows → cond r = false) →
  Rows.update_rows cond values rows = (0%Z, rows).
Proof.
  intros Hnone. unfold Rows.update_rows. rewrite matching_nil by done.
  f_equal. induction rows as [|r rows IH]; [done|].
  rewrite fmap_cons, (Hnone r) by apply list_elem_of_here. f_equal.
  apply IH. intros r' Hr'. apply Hnone. by apply list_elem_of_further.
Qed.

Lemma elem_of_filter_bool (cond : row → bool) (rows : Rows.t) (r : row) :
  r ∈ List.filter cond rows ↔ r ∈ rows ∧ cond r = true.
Proof. rewrite !list_elem_of_In. apply List.filter_In. Qed.

(** ** Listing *)

Lemma databases_matching_all (rows : Rows.t) :
  Rows.matching (Databases.sat None) rows = rows.
Proof. apply filter_all_kept. by intros. Qed.

(** ** The query-builder routes on the reference connection, composed *)

Section databases_composed.
Import Databases.
Implicit Types (self : DatabasesCRUDRouter) (item_id : value).
Implicit Types (schema : BaseModel) (rows : Rows.t).

Lemma matching_nil_inv (cond : row → bool) rows :
  Rows.matching cond rows = [] → ∀ r, r ∈ rows → cond r = false.
Proof.
  intros Hnil r Hr. destruct (cond r) eqn:Hc; [|done].
  assert (Hin : r ∈ Rows.matching cond rows) by by apply elem_of_filter_bool.
  rewrite Hnil in Hin. by apply elem_of_nil in Hin.
Qed.

Lemma sat_key (pk : string) item_id (r : row) :
  sat (Some (Eq pk item_id)) r = true ↔ r !! pk = Some item_id.
Proof. simpl. apply bool_decide_eq_true. Qed.

Lemma sat_key_not (pk : string) item_id (r : row) :
  sat (Some (Eq pk item_id)) r = false ↔ r !! pk ≠ Some item_id.
Proof. simpl. apply bool_decide_eq_false. Qed.

(** [delete_one] on the reference connection: the fetch decides, since a
    row that was fetched is there to be deleted. *)
Lemma memory_delete_one self item_id rows :
  _delete_one self item_id rows =
  match head (Rows.matching (sat (Some (Eq (_pk self) item_id))) rows) with
  | Some m =>
      (inr m,
       List.filter (λ r, negb (sat (Some (Eq (_pk self) item_id)) r)) rows)
  | None => (inl NOT_FOUND, rows)
  end.
Proof.
  rewrite databases_delete_one_unfold, memory_get_one.
  destruct (Rows.matching _ rows) as [|m ms] eqn:Hm; [done|].
  assert (Hkey : m !! _pk self = Some item_id).
  { apply sat_key. apply (matching_head _ rows). by rewrite Hm. }
  cbn [head]. rewrite (keyed_row_nonempty _ _ _ Hkey).
  cbn -[sat List.filter Rows.matching]. unfold Rows.delete_rows.
  rewrite Hm. cbn [length]. unfold truthy.
  replace (Z.of_nat (Datatypes.S (length ms)) =? 0)%Z with false; [done|].
  symmetry. apply Z.eqb_neq. lia.
Qed.

(** [update] on the reference connection: the rows under the key are
    overwritten with the payload's fields other than the key, and the
    number of such rows decides. *)
Lemma memory_update self item_id schema rows :
  _update self item_id schema rows =
  match Rows.matching (sat (Some (Eq (_pk self) item_id))) rows with
  | [] => (inl NOT_FOUND, rows)
  | m :: ms =>
      (inr (dict schema
            ∪ {[ _pk self := VInt (Z.of_nat (Datatypes.S (length ms))) ]}),
       (λ r, if sat (Some (Eq (_pk self) item_id)) r
             then dict_exclude schema {[ _pk self ]} ∪ r else r) <$> rows)
  end.
Proof.
  rewrite databases_update_unfold.
  cbn -[sat Rows.matching Rows.update_rows].
  destruct (Rows.matching _ rows) as [|m ms] eqn:Hm.
  - rewrite update_rows_none by by apply matching_nil_inv.
    done.
  - unfold Rows.update_rows. rewrite Hm. cbn [length]. unfold truthy.
    replace (Z.of_nat (Datatypes.S (length ms)) =? 0)%Z with false; [done|].
    symmetry. apply Z.eqb_neq. lia.
Qed.

End databases_composed.

Section databases_extras.
Import Databases.
Implicit Types (self : DatabasesCRUDRouter) (item_id : value).
Implicit Types (schema : BaseModel) (rows : Rows.t).


(** X4.  On the reference connection, [create] with a payload of the
    create schema always succeeds: the returned record has every field of
    the payload and, under the key, an integer that no row of the table
    carried when the call was made; the table is the old one with exactly
    that record added at its end. *)
Theorem memory_create_fresh_key (tbl : Table) self schema rows :
  __init__ tbl = Some self →
  create_schema_instance (_pk self) schema →
  ∃ k : Z,
    _create self schema rows
    = (inr (<[_pk self := VInt k]> (dict schema)),
       (rows ++ [<[_pk self := VInt k]> (dict schema)])%list)
    ∧ (∀ r, r ∈ rows → r !! _pk self ≠ Some (VInt k))
    ∧ (∀ f v, dict schema !! f = Some v →
              <[_pk self := VInt k]> (dict schema) !! f = Some v).
Proof.
  intros Hinit Hkeyless. exists (Rows.next_key (_pk self) rows).
  split; [|split].
  - rewrite (memory_create_keyless tbl) by done. f_equal. f_equal.
    apply map_eq. intros f. destruct (decide (f = _pk self)) as [->|Hne].
    + by rewrite merged_lookup_key, Hkeyless, lookup_insert_eq.
    + by rewrite merged_lookup_other, lookup_insert_ne.
  - intros r Hr. apply (bool_decide_eq_false (r !! _pk self = Some _)).
    by apply next_key_fresh.
  - intros f v Hf. rewrite lookup_insert_ne; [done|].
    intros <-. unfold create_schema_instance in Hkeyless. congruence.
Qed.

(** X5.  On the reference connection, [create] followed by [delete_one]
    of the key [create] returned gives back the record just created and
    the table as it was before the two calls. *)
Theorem memory_create_then_delete_one (tbl : Table) self schema rows :
  __init__ tbl = Some self →
  create_schema_instance (_pk self) schema →
  ∃ created rows1 k,
    _create self schema rows = (inr created, rows1)
    ∧ created !! _pk self = Some k
    ∧ _delete_one self k rows1 = (inr created, rows).
Proof.
  intros Hinit Hkeyless.
  destruct (memory_create_fresh_key tbl self schema rows Hinit Hkeyless)
    as (k & Hcreate & Hfresh & _).
  eexists _, _, (VInt k). split; [exact Hcreate|].
  split; [apply lookup_insert_eq|].
  rewrite memory_delete_one, matching_app.
  rewrite (matching_nil _ rows) by (intros r Hr; by apply sat_key_not, Hfresh).
  assert (Hnew : sat (Some (Eq (_pk self) (VInt k)))
                   (<[_pk self := VInt k]> (dict schema)) = true)
    by apply sat_key, lookup_insert_eq.
  unfold Rows.matching. cbn [List.filter app]. rewrite Hnew. cbn [head app].
  f_equal. rewrite List.filter_app. cbn [List.filter]. rewrite Hnew.
  cbn [negb]. rewrite app_nil_r. apply filter_all_kept.
  intros r Hr. apply negb_true_iff. by apply sat_key_not, Hfresh.
Qed.

(** X6.  On the reference connection, a [delete_one] that returns a
    record returns a row the table held under that key, leaves in the
    table exactly the rows under other keys, and makes a following
    [get_one] of the same key raise [NOT_FOUND]. *)
Theorem memory_delete_one_then_get_one self item_id rows fetched rows' :
  _delete_one self item_id rows = (inr fetched, rows') →
  fetched ∈ rows
  ∧ fetched !! _pk self = Some item_id
  ∧ (∀ r, r ∈ rows' ↔ r ∈ rows ∧ r !! _pk self ≠ Some item_id)
  ∧ _get_one self item_id rows' = (inl NOT_FOUND, rows').
Proof.
  rewrite memory_delete_one.
  destruct (head (Rows.matching _ rows)) as [m|] eqn:Hhd; [|done].
  intros [= <- <-]. destruct (matching_head _ _ _ Hhd) as [Hin Hsat].
  split; [done|]. split; [by apply sat_key|].
  assert (Hleft : ∀ r,
            r ∈ List.filter
                  (λ r, negb (sat (Some (Eq (_pk self) item_id)) r)) rows
            ↔ r ∈ rows ∧ r !! _pk self ≠ Some item_id).
  { intros r. rewrite elem_of_filter_bool, negb_true_iff.
    by rewrite sat_key_not. }
  split; [exact Hleft|].
  apply memory_get_one_absent. intros r Hr. by apply Hleft in Hr as [_ Hr].
Qed.

End databases_extras.

(** ** The active-record routes on the reference database, composed *)

Section tortoise_extras.
Import Tortoise.
Implicit Types (self : TortoiseCRUDRouter) (item_id : value).
Implicit Types (payload : BaseModel) (rows : Rows.t).

Lemma sat_id_true item_id (r : row) :
  sat [("id", item_id)] r = true ↔ r !! "id" = Some item_id.
Proof. rewrite sat_id. apply bool_decide_eq_true. Qed.

Lemma sat_id_false item_id (r : row) :
  sat [("id", item_id)] r = false ↔ r !! "id" ≠ Some item_id.
Proof. rewrite sat_id. apply bool_decide_eq_false. Qed.

Lemma tortoise_memory_delete_one self item_id rows :
  _delete_one self item_id rows =
  match head (Rows.matching (sat [("id", item_id)]) rows) with
  | Some m =>
      (inr m, List.filter (λ r, negb (sat [("id", item_id)] r)) rows)
  | None => (inl NOT_FOUND, rows)
  end.
Proof.
  rewrite tortoise_delete_one_unfold, tortoise_memory_get_one.
  by destruct (head _).
Qed.

(** [update] on the reference database, for a payload that leaves the
    key column unset. *)
Lemma tortoise_memory_update self item_id payload rows :
  dict_exclude_unset payload
    !! db_column (pk_field (describe (db_model self))) = None →
  _update self item_id payload rows
  = _get_one self item_id
      ((λ r, if sat [("id", item_id)] r
             then dict_exclude_unset payload ∪ r else r) <$> rows).
Proof.
  intros Hno_key. rewrite tortoise_update_unfold.
  change (update ?q ?kw rows) with (run_update q kw rows).
  unfold run_update. cbn [model filter_by]. by rewrite Hno_key.
Qed.

(** X10.  On the reference database and for every model, a [delete_one]
    that returns an instance returns one the table held with that value
    in its field [id], leaves in the table exactly the instances whose
    [id] differs, and makes a following [get_one] of the same value raise
    [NOT_FOUND]. *)
Theorem tortoise_delete_one_then_get_one self item_id rows fetched rows' :
  _delete_one self item_id rows = (inr fetched, rows') →
  fetched ∈ rows
  ∧ fetched !! "id" = Some item_id
  ∧ (∀ r, r ∈ rows' ↔ r ∈ rows ∧ r !! "id" ≠ Some item_id)
  ∧ _get_one self item_id rows' = (inl NOT_FOUND, rows').
Proof.
  rewrite tortoise_memory_delete_one.
  destruct (head (Rows.matching _ rows)) as [m|] eqn:Hhd; [|done].
  intros [= <- <-]. destruct (matching_head _ _ _ Hhd) as [Hin Hsat].
  split; [done|]. split; [by apply sat_id_true|].
  assert (Hleft : ∀ r,
            r ∈ List.filter (λ r, negb (sat [("id", item_id)] r)) rows
            ↔ r ∈ rows ∧ r !! "id" ≠ Some item_id).
  { intros r. rewrite elem_of_filter_bool, negb_true_iff.
    by rewrite sat_id_false. }
  split; [exact Hleft|].
  rewrite tortoise_memory_get_one, matching_nil; [done|].
  intros r Hr. apply sat_id_false. by apply Hleft in Hr as [_ Hr].
Qed.

(** X11.  On the reference database, [create] with a payload that has no
    field under the model's key column succeeds: the returned instance is
    the payload with, under the key column, an integer no instance carried
    there before, and it is added at the end of the table.  When the key
    column is the field [id], [get_one] of that integer returns the very
    instance [create] returned. *)
Theorem tortoise_create_then_get_one (cls : Model) payload rows :
  let pk := db_column (pk_field (describe cls)) in
  dict payload !! pk = None →
  ∃ k : Z,
    let created := <[pk := VInt k]> (dict payload) in
    _create (__init__ cls) payload rows = (inr created, (rows ++ [created])%list)
    ∧ (∀ r, r ∈ rows → r !! pk ≠ Some (VInt k))
    ∧ (pk = "id" →
       _get_one (__init__ cls) (VInt k) (rows ++ [created])%list
       = (inr created, (rows ++ [created])%list)).
Proof.
  intros pk Hkeyless. exists (Rows.next_key pk rows). cbv zeta.
  assert (Hfresh : ∀ r, r ∈ rows →
                        r !! pk ≠ Some (VInt (Rows.next_key pk rows))).
  { intros r Hr. apply (bool_decide_eq_false (r !! pk = Some _)).
    by apply next_key_fresh. }
  split; [|split; [done|]].
  - rewrite tortoise_create_unfold.
    change (save ?c ?kw rows) with (run_save c kw rows).
    unfold run_save, Rows.insert_row. cbn [db_model __init__]. fold pk.
    by rewrite Hkeyless.
  - intros Hid. rewrite tortoise_memory_get_one, matching_app.
    rewrite (matching_nil _ rows).
    2: { intros r Hr. apply sat_id_false. rewrite <- Hid.
         by apply Hfresh. }
    assert (Hnew : sat [("id", VInt (Rows.next_key pk rows))]
                     (<[pk := VInt (Rows.next_key pk rows)]> (dict payload))
                   = true).
    { apply sat_id_true. rewrite <- Hid. apply lookup_insert_eq. }
    unfold Rows.matching. cbn [List.filter app]. by rewrite Hnew.
Qed.

End tortoise_extras.

(** X12.  On any database, when the active-record [update] raises
    [NOT_FOUND], the write has already been awaited and has succeeded:
    the exception is that of the re-fetch which follows it, and the state
    left behind is the one after the write and the re-fetch.  A
    [NOT_FOUND] from [update] therefore does not say that nothing was
    written. *)
Theorem tortoise_update_not_found_after_write
    (S : Type) (orm : Tortoise.ORM S) (self : Tortoise.TortoiseCRUDRouter)
    (item_id : value) (payload : BaseModel) (s s2 : S) :
  Tortoise._update self item_id payload s = (inl NOT_FOUND, s2) →
  ∃ (n : Z) (s1 : S),
    Tortoise.update
      (Tortoise.filter_by (Tortoise.db_model self) "id" item_id)
      (dict_exclude_unset payload) s = (inr n, s1)
    ∧ Tortoise._get_one self item_id s1 = (inl NOT_FOUND, s2).
Proof.
  rewrite tortoise_update_unfold.
  destruct (Tortoise.update _ _ s) as [[e|n] s1]; [done|].
  intros Hget. by exists n, s1.
Qed.

(** ** The default prefix *)

Lemma prefix_true_split (old s : string) :
  String.prefix old s = true → ∃ rest, s = old ++ rest.
Proof.
  revert s. induction old as [|c old IH]; intros s Hp.
  - by exists s.
  - destruct s as [|c' s]; [done|]. simpl in Hp.
    destruct (Ascii.ascii_dec c c') as [->|]; [|done].
    destruct (IH s Hp) as [rest ->]. by exists rest.
Qed.






(** ** Instances of the further properties on the sample data *)


Lemma memory_create_fresh_key_witness :
  ∃ k : Z,
    Databases._create Sample.potato_router (Sample.named "c") Sample.potatoes
    = (inr (<["id" := VInt k]> (dict (Sample.named "c"))),
       (Sample.potatoes ++ [<["id" := VInt k]> (dict (Sample.named "c"))])%list)
    ∧ (∀ r, r ∈ Sample.potatoes → r !! "id" ≠ Some (VInt k)).
Proof.
  assert (Hkeyless : create_schema_instance "id" (Sample.named "c"))
    by (vm_compute; reflexivity).
  destruct (memory_create_fresh_key Sample.potato_table Sample.potato_router
              (Sample.named "c") Sample.potatoes eq_refl Hkeyless)
    as (k & Hcreate & Hfresh & _).
  exists k. split; [exact Hcreate | exact Hfresh].
Defined.

Lemma memory_create_then_delete_one_witness :
  ∃ created rows1 k,
    Databases._create Sample.potato_router (Sample.named "c") Sample.potatoes
    = (inr created, rows1)
    ∧ created !! "id" = Some k
    ∧ Databases._delete_one Sample.potato_router k rows1
      = (inr created, Sample.potatoes).
Proof.
  assert (Hkeyless : create_schema_instance "id" (Sample.named "c"))
    by (vm_compute; reflexivity).
  exact (memory_create_then_delete_one Sample.potato_table
           Sample.potato_router (Sample.named "c") Sample.potatoes
           eq_refl Hkeyless).
Defined.

Lemma memory_delete_one_then_get_one_witness :
  let fetched : row := {[ "id" := VInt 1; "name" := VStr "a" ]} in
  let rows' : Rows.t := [ {[ "id" := VInt 2; "name" := VStr "b" ]} ] in
  Databases._delete_one Sample.potato_router (VInt 1) Sample.potatoes
  = (inr fetched, rows')
  ∧ Databases._get_one Sample.potato_router (VInt 1) rows'
    = (inl NOT_FOUND, rows').
Proof.
  intros fetched rows'.
  assert (Hrun : Databases._delete_one Sample.potato_router (VInt 1)
                   Sample.potatoes = (inr fetched, rows'))
    by (vm_compute; reflexivity).
  split; [exact Hrun|].
  exact (proj2 (proj2 (proj2 (memory_delete_one_then_get_one
                                Sample.potato_router (VInt 1) Sample.potatoes
                                fetched rows' Hrun)))).
Defined.

Lemma tortoise_delete_one_then_get_one_witness :
  let self := Tortoise.__init__ Sample.Carrot in
  let fetched : row := {[ "uid" := VInt 5; "id" := VInt 7; "name" := VStr "a" ]} in
  let rows' : Rows.t :=
    [ {[ "uid" := VInt 1; "id" := VInt 5; "name" := VStr "b" ]} ] in
  Tortoise._delete_one self (VInt 7) Sample.carrots = (inr fetched, rows')
  ∧ Tortoise._get_one self (VInt 7) rows' = (inl NOT_FOUND, rows').
Proof.
  intros self fetched rows'.
  assert (Hrun : Tortoise._delete_one self (VInt 7) Sample.carrots
                 = (inr fetched, rows')) by (vm_compute; reflexivity).
  split; [exact Hrun|].
  exact (proj2 (proj2 (proj2 (tortoise_delete_one_then_get_one self (VInt 7)
                                Sample.carrots fetched rows' Hrun)))).
Defined.

Lemma tortoise_create_then_get_one_witness :
  ∃ k : Z,
    let created := <["id" := VInt k]> (dict (Sample.named "c")) in
    Tortoise._create (Tortoise.__init__ Sample.Potato) (Sample.named "c")
      Sample.potatoes
    = (inr created, (Sample.potatoes ++ [created])%list)
    ∧ Tortoise._get_one (Tortoise.__init__ Sample.Potato) (VInt k)
        (Sample.potatoes ++ [created])%list
      = (inr created, (Sample.potatoes ++ [created])%list).
Proof.
  assert (Hkeyless : dict (Sample.named "c") !! "id" = None)
    by (vm_compute; reflexivity).
  destruct (tortoise_create_then_get_one Sample.Potato (Sample.named "c")
              Sample.potatoes Hkeyless) as (k & Hcreate & _ & Hget).
  exists k. split; [exact Hcreate | exact (Hget eq_refl)].
Defined.

Lemma tortoise_update_not_found_after_write_witness :
  let self := Tortoise.__init__ Sample.Potato in
  let s := {| Rows.replica := []; Rows.primary := Sample.potatoes |} in
  let s2 :=
    {| Rows.replica := [];
       Rows.primary :=
         [ {[ "id" := VInt 1; "name" := VStr "c" ]};
           {[ "id" := VInt 2; "name" := VStr "b" ]} ] |} in
  Tortoise._update self (VInt 1) (Sample.named "c") s = (inl NOT_FOUND, s2)
  ∧ ∃ (n : Z) (s1 : Rows.lagging),
      Tortoise.update
        (Tortoise.filter_by (Tortoise.db_model self) "id" (VInt 1))
        (dict_exclude_unset (Sample.named "c")) s = (inr n, s1)
      ∧ Tortoise._get_one self (VInt 1) s1 = (inl NOT_FOUND, s2).
Proof.
  intros self s s2.
  assert (Hrun : Tortoise._update self (VInt 1) (Sample.named "c") s
                 = (inl NOT_FOUND, s2)) by (vm_compute; reflexivity).
  split; [exact Hrun|].
  exact (tortoise_update_not_found_after_write Rows.lagging Tortoise.lagging
           self (VInt 1) (Sample.named "c") s s2 Hrun).
Defined.


(** * The returned key of an update, and the round trips, revisited *)

(** C4 (counterexample).  [update(2, {name: "c"})] on a table holding the
    keys 1 and 2: the row under key 2 is rewritten, and the record
    returned carries under the key the number of rows affected, 1, which
    is not the key of the updated row; the record returned is no row of
    the table. *)
Lemma databases_update_key_is_not_item_id :
  let self := Sample.potato_router in
  ∃ returned rows',
    Databases._update self (VInt 2) (Sample.named "c") Sample.potatoes
    = (inr returned, rows')
    ∧ rows' = [ {[ "id" := VInt 1; "name" := VStr "a" ]};
                {[ "id" := VInt 2; "name" := VStr "c" ]} ]
    ∧ returned !! Databases._pk self = Some (VInt 1)
    ∧ returned !! Databases._pk self ≠ Some (VInt 2)
    ∧ returned ∉ rows'.
Proof.
  eexists _, _. split; [vm_compute; reflexivity|].
  split; [reflexivity|]. split; [vm_compute; reflexivity|].
  split; [vm_compute; congruence|].
  intros Hin.
  repeat (apply elem_of_cons in Hin as [Heq|Hin];
          [apply (f_equal (λ m : row, (m !! "id", m !! "name"))) in Heq;
           vm_compute in Heq; congruence|]).
  by apply elem_of_nil in Hin.
Qed.





(** * Further properties, restated on what every backend shares *)

Lemma window_rows (skip : Z) (limit : option Z) (rows : Rows.t) :
  let listed := Rows.window (Some skip) limit rows in
  length listed
  = (match limit with
     | Some l => Nat.min (Z.to_nat l) (length rows - Z.to_nat skip)
     | None => length rows - Z.to_nat skip
     end)%nat
  ∧ ∀ r, r ∈ listed → r ∈ rows.
Proof.
  unfold Rows.window. destruct limit as [l|]; split.
  - by rewrite length_take, length_drop.
  - intros r Hr. by apply (subseteq_drop (Z.to_nat skip)),
                          (subseteq_take (Z.to_nat l)).
  - by rewrite length_drop.
  - intros r Hr. by apply (subseteq_drop (Z.to_nat skip)).
Qed.

(** X1.  The query-builder list route hands [skip] and [limit] to the
    query exactly as the pagination dictionary gives them, on every
    connection: nothing is tested or defaulted, a limit of [0] goes out
    as a limit of [0].  On the reference connection, for a skip and a
    limit that are not negative, it answers with rows of the table,
    [min limit (n - skip)] of them for a table of [n] rows, and leaves the
    table alone; so it never answers with more than [limit] rows, and
    with none for a limit of [0].  With a limit of [None] it answers with
    [n - skip] rows. *)
Theorem databases_list_window :
  (∀ S (db : Databases.Database S) (self : Databases.DatabasesCRUDRouter)
     (pagination : row) (s : S),
     Databases._get_all self pagination s
     = await (Databases.fetch_all
                (Databases.Select (Databases.table self) None
                   (get pagination "limit") (get pagination "skip"))) s)
  ∧ (∀ (self : Databases.DatabasesCRUDRouter) (skip limit : Z) (rows : Rows.t),
       (0 ≤ skip)%Z → (0 ≤ limit)%Z →
       ∃ listed,
         Databases._get_all self
           {[ "skip" := VInt skip; "limit" := VInt limit ]} rows
         = (inr listed, rows)
         ∧ length listed
           = Nat.min (Z.to_nat limit) (length rows - Z.to_nat skip)
         ∧ (length listed ≤ Z.to_nat limit)%nat
         ∧ (limit = 0%Z → listed = [])
         ∧ ∀ r, r ∈ listed → r ∈ rows)
  ∧ (∀ (self : Databases.DatabasesCRUDRouter) (skip : Z) (rows : Rows.t),
       (0 ≤ skip)%Z →
       ∃ listed,
         Databases._get_all self
           {[ "skip" := VInt skip; "limit" := VNone ]} rows
         = (inr listed, rows)
         ∧ length listed = (length rows - Z.to_nat skip)%nat
         ∧ ∀ r, r ∈ listed → r ∈ rows).
Proof.
  split; [intros; reflexivity|].
  assert (Hget : ∀ (self : Databases.DatabasesCRUDRouter) (skip : Z)
                   (l : value) (rows : Rows.t),
            Databases._get_all self {[ "skip" := VInt skip; "limit" := l ]} rows
            = await (Databases.fetch_all
                       (Databases.Select (Databases.table self) None l
                          (VInt skip))) rows).
  { intros self skip l rows. unfold Databases._get_all.
    by destruct (get_two_keys "skip" "limit" (VInt skip) l) as [-> ->]. }
  split.
  - intros self skip limit rows _ _.
    destruct (window_rows skip (Some limit) rows) as [Hlen Hin].
    exists (Rows.window (Some skip) (Some limit) rows).
    split; [|split; [exact Hlen|split; [|split; [|exact Hin]]]].
    + rewrite Hget. unfold await. cbn -[Rows.window].
      by rewrite databases_matching_all.
    + cbv zeta in Hlen. rewrite Hlen. lia.
    + intros ->. by apply nil_length_inv.
  - intros self skip rows _.
    destruct (window_rows skip None rows) as [Hlen Hin].
    exists (Rows.window (Some skip) None rows).
    split; [|split; [exact Hlen|exact Hin]].
    rewrite Hget. unfold await. cbn -[Rows.window].
    by rewrite databases_matching_all.
Qed.

(** X2.  The active-record list route on the reference database, for a
    skip that is not negative: with a limit that is false in Python's
    sense ([None], [0], [False]) it answers with [n - skip] instances of a
    table of [n]; with a positive limit it answers with
    [min limit (n - skip)] of them, so never with more than the limit.
    What it answers with are instances of the table, and the table is left
    alone. *)
Theorem tortoise_list_window (self : Tortoise.TortoiseCRUDRouter)
    (skip : Z) (falsy : value) (n : positive) (rows : Rows.t) :
  (0 ≤ skip)%Z →
  truthy falsy = false →
  (∃ listed,
     Tortoise._get_all self {[ "skip" := VInt skip; "limit" := falsy ]} rows
     = (inr listed, rows)
     ∧ length listed = (length rows - Z.to_nat skip)%nat
     ∧ ∀ r, r ∈ listed → r ∈ rows)
  ∧ (∃ listed,
       Tortoise._get_all self
         {[ "skip" := VInt skip; "limit" := VInt (Z.pos n) ]} rows
       = (inr listed, rows)
       ∧ length listed = Nat.min (Pos.to_nat n) (length rows - Z.to_nat skip)
       ∧ (length listed ≤ Pos.to_nat n)%nat
       ∧ ∀ r, r ∈ listed → r ∈ rows).
Proof.
  intros _ Hfalsy. split.
  - destruct (window_rows skip None rows) as [Hlen Hin].
    exists (Rows.window (Some skip) None rows).
    split; [|split; [exact Hlen|exact Hin]].
    rewrite tortoise_get_all_falsy_limit by done.
    unfold await. cbn -[Rows.window]. unfold Tortoise.run_fetch.
    cbn -[Rows.window]. by rewrite matching_all.
  - destruct (window_rows skip (Some (Z.pos n)) rows) as [Hlen Hin].
    exists (Rows.window (Some skip) (Some (Z.pos n)) rows).
    split; [|split; [exact Hlen|split; [|exact Hin]]].
    + rewrite tortoise_get_all_unfold.
      destruct (get_two_keys "skip" "limit" (VInt skip) (VInt (Z.pos n)))
        as [-> ->]; [done|].
      unfold await. cbn -[Rows.window]. unfold Tortoise.run_fetch.
      cbn -[Rows.window]. by rewrite matching_all.
    + cbv zeta in Hlen. rewrite Hlen.
      change (Z.to_nat (Z.pos n)) with (Pos.to_nat n). lia.
Qed.

(** X7.  On the reference connection, when a row of the table carries
    the key and [update] returns a record: the number of rows and every
    row under another key are kept; the key column is not among the
    values written, so a following [get_one] of the same key still finds
    a row under that key, and that row has every field of the payload
    other than the key. *)
Theorem memory_update_then_get_one (self : Databases.DatabasesCRUDRouter)
    (item_id : value) (schema : BaseModel) (rows : Rows.t)
    (returned : row) (rows' : Rows.t) :
  (∃ r, r ∈ rows ∧ r !! Databases._pk self = Some item_id) →
  Databases._update self item_id schema rows = (inr returned, rows') →
  length rows' = length rows
  ∧ (∀ r, r ∈ rows → r !! Databases._pk self ≠ Some item_id → r ∈ rows')
  ∧ ∃ fetched,
      Databases._get_one self item_id rows' = (inr fetched, rows')
      ∧ fetched !! Databases._pk self = Some item_id
      ∧ ∀ f v, f ≠ Databases._pk self → dict schema !! f = Some v →
               fetched !! f = Some v.
Proof.
  intros _. rewrite memory_update.
  set (cond := Databases.sat
                 (Some (Databases.Eq (Databases._pk self) item_id))).
  set (values := dict_exclude schema {[ Databases._pk self ]}).
  destruct (Rows.matching cond rows) as [|m ms] eqn:Hm; [done|].
  intros [= <- <-].
  assert (Hvalues : values !! Databases._pk self = None).
  { unfold values. rewrite dict_exclude_lookup.
    by rewrite decide_True by set_solver. }
  split; [apply length_fmap|]. split.
  { intros r Hr Hother. apply list_elem_of_fmap. exists r. split; [|done].
    assert (Hc : cond r = false) by by apply sat_key_not.
    cbv beta. by rewrite Hc. }
  assert (Hmin : m ∈ rows ∧ cond m = true).
  { apply matching_head. by rewrite Hm. }
  destruct Hmin as [Hmin Hmsat].
  destruct (matching_cons_head cond
              ((λ r, if cond r then values ∪ r else r) <$> rows)
              (values ∪ m)) as (fetched & Hhd & _ & Hfsat).
  { apply list_elem_of_fmap. exists m. cbv beta. by rewrite Hmsat. }
  { apply sat_key. rewrite lookup_union_r by done. by apply sat_key. }
  apply sat_key in Hfsat.
  exists fetched. split; [|split; [done|]].
  - rewrite memory_get_one. fold cond. rewrite Hhd.
    by rewrite (keyed_row_nonempty _ _ _ Hfsat).
  - intros f v Hf Hv. apply (updated_head cond values rows); [done|].
    unfold values. rewrite dict_exclude_lookup.
    by rewrite decide_False by set_solver.
Qed.

(** X8.  On the reference connection, a [NOT_FOUND] from [get_one],
    [update] or [delete_one] of the query-builder adapter is never raised
    for a key that is there and never comes with a write: whenever one of
    them raises it, no row of the table carried the key, and the table is
    left exactly as it was. *)
Theorem memory_not_found_means_absent (self : Databases.DatabasesCRUDRouter)
    (item_id : value) (schema : BaseModel) (rows rows' : Rows.t) :
  Databases._get_one self item_id rows = (inl NOT_FOUND, rows')
  ∨ Databases._update self item_id schema rows = (inl NOT_FOUND, rows')
  ∨ Databases._delete_one self item_id rows = (inl NOT_FOUND, rows') →
  rows' = rows
  ∧ ∀ r, r ∈ rows → r !! Databases._pk self ≠ Some item_id.
Proof.
  set (cond := Databases.sat
                 (Some (Databases.Eq (Databases._pk self) item_id))).
  assert (Habsent : Rows.matching cond rows = [] →
                    ∀ r, r ∈ rows → r !! Databases._pk self ≠ Some item_id).
  { intros Hm r Hr. apply sat_key_not. by apply (matching_nil_inv cond rows). }
  rewrite memory_get_one, memory_update, memory_delete_one. fold cond.
  destruct (Rows.matching cond rows) as [|m ms] eqn:Hm.
  - cbn [head Databases.found].
    intros [[= <-]|[[= <-]|[= <-]]]; (split; [done | by apply Habsent]).
  - assert (Hfound : Databases.found (Some m) = Some m).
    { apply (keyed_row_nonempty (Databases._pk self) item_id).
      apply sat_key. apply (matching_head cond rows). by rewrite Hm. }
    cbn [head]. rewrite Hfound. by intros [[=]|[[=]|[=]]].
Qed.

(** X13.  On the reference database and for every model, a [NOT_FOUND]
    from the active-record [get_one] or [delete_one], or from [update]
    with a payload that leaves the field [id] unset, is never raised for
    an [id] that is there and never comes with a write: whenever one of
    them raises it, no instance of the table had that value in its field
    [id], and the table is left exactly as it was. *)
Theorem tortoise_not_found_means_no_id (self : Tortoise.TortoiseCRUDRouter)
    (item_id : value) (payload : BaseModel) (rows rows' : Rows.t) :
  Tortoise._get_one self item_id rows = (inl NOT_FOUND, rows')
  ∨ Tortoise._delete_one self item_id rows = (inl NOT_FOUND, rows')
  ∨ (dict_exclude_unset payload !! "id" = None
     ∧ Tortoise._update self item_id payload rows = (inl NOT_FOUND, rows')) →
  rows' = rows
  ∧ ∀ r, r ∈ rows → r !! "id" ≠ Some item_id.
Proof.
  set (cond := Tortoise.sat [("id", item_id)]).
  assert (Habsent : Rows.matching cond rows = [] →
                    ∀ r, r ∈ rows → r !! "id" ≠ Some item_id).
  { intros Hm r Hr. apply sat_id_false. by apply (matching_nil_inv cond rows). }
  intros [Hget|[Hdel|[Hno_id Hupd]]].
  - rewrite tortoise_memory_get_one in Hget. fold cond in Hget.
    destruct (Rows.matching cond rows) as [|m ms] eqn:Hm; [|done].
    injection Hget as <-. split; [done | by apply Habsent].
  - rewrite tortoise_memory_delete_one in Hdel. fold cond in Hdel.
    destruct (Rows.matching cond rows) as [|m ms] eqn:Hm; [|done].
    injection Hdel as <-. split; [done | by apply Habsent].
  - rewrite tortoise_update_unfold in Hupd.
    change (Tortoise.update ?q ?kw rows)
      with (Tortoise.run_update q kw rows) in Hupd.
    unfold Tortoise.run_update in Hupd.
    cbn [Tortoise.model Tortoise.filter_by] in Hupd.
    destruct (dict_exclude_unset payload !! Tortoise.db_column _) as [v|];
      [done|].
    cbn [Tortoise.filters Rows.update_rows] in Hupd.
    rewrite tortoise_memory_get_one in Hupd. fold cond in Hupd.
    destruct (head _) as [m|] eqn:Hhd; [done|].
    injection Hupd as <-.
    assert (Hnone : ∀ r, r ∈ rows → cond r = false).
    { intros r Hr. destruct (cond r) eqn:Hc; [|done]. exfalso.
      destruct (matching_cons_head cond
                  ((λ r0, if cond r0 then dict_exclude_unset payload ∪ r0
                          else r0) <$> rows)
                  (dict_exclude_unset payload ∪ r)) as (m & Hm & _).
      - apply list_elem_of_fmap. exists r. cbv beta. by rewrite Hc.
      - apply sat_id_true. rewrite lookup_union_r by done.
        by apply sat_id_true.
      - change (head (Rows.matching cond
                        ((λ r0, if cond r0 then dict_exclude_unset payload ∪ r0
                                else r0) <$> rows)) = None) in Hhd.
        congruence. }
    split.
    + pose proof (update_rows_none cond (dict_exclude_unset payload) rows
                    Hnone) as Hsame.
      unfold Rows.update_rows in Hsame. by injection Hsame.
    + intros r Hr. apply sat_id_false. by apply Hnone.
Qed.

(** ** Instances of the restated properties on the sample data *)

Lemma databases_list_window_witness :
  ∃ listed,
    Databases._get_all Sample.potato_router
      {[ "skip" := VInt 1; "limit" := VInt 5 ]} Sample.potatoes
    = (inr listed, Sample.potatoes)
    ∧ length listed = 1
    ∧ ∀ r, r ∈ listed → r ∈ Sample.potatoes.
Proof.
  destruct (proj1 (proj2 databases_list_window) Sample.potato_router 1%Z 5%Z
              Sample.potatoes) as (listed & Hrun & Hlen & _ & _ & Hin);
    [lia | lia |].
  exists listed. split; [exact Hrun|]. split; [exact Hlen | exact Hin].
Defined.

Lemma tortoise_list_window_witness :
  ∃ listed,
    Tortoise._get_all (Tortoise.__init__ Sample.Potato)
      {[ "skip" := VInt 1; "limit" := VBool false ]} Sample.potatoes
    = (inr listed, Sample.potatoes)
    ∧ length listed = 1.
Proof.
  destruct (proj1 (tortoise_list_window (Tortoise.__init__ Sample.Potato) 1
                     (VBool false) 1 Sample.potatoes ltac:(lia) eq_refl))
    as (listed & Hrun & Hlen & _).
  exists listed. split; [exact Hrun | exact Hlen].
Defined.

Lemma memory_update_then_get_one_witness :
  let returned : row := {[ "id" := VInt 9; "name" := VStr "c" ]} in
  let rows' : Rows.t :=
    [ {[ "id" := VInt 1; "name" := VStr "a" ]};
      {[ "id" := VInt 2; "name" := VStr "c" ]} ] in
  Databases._update Sample.potato_router (VInt 2) (Sample.keyed 9 "c")
    Sample.potatoes = (inr returned, rows')
  ∧ ∃ fetched,
      Databases._get_one Sample.potato_router (VInt 2) rows'
      = (inr fetched, rows')
      ∧ fetched !! "id" = Some (VInt 2).
Proof.
  intros returned rows'.
  assert (Hrun : Databases._update Sample.potato_router (VInt 2)
                   (Sample.keyed 9 "c") Sample.potatoes
                 = (inr returned, rows')) by (vm_compute; reflexivity).
  assert (Hpresent : ∃ r, r ∈ Sample.potatoes
                          ∧ r !! Databases._pk Sample.potato_router
                            = Some (VInt 2)).
  { exists {[ "id" := VInt 2; "name" := VStr "b" ]}. split.
    - apply list_elem_of_further, list_elem_of_here.
    - vm_compute. reflexivity. }
  split; [exact Hrun|].
  destruct (memory_update_then_get_one Sample.potato_router (VInt 2)
              (Sample.keyed 9 "c") Sample.potatoes returned rows'
              Hpresent Hrun)
    as (_ & _ & fetched & Hget & Hkey & _).
  exists fetched. split; [exact Hget | exact Hkey].
Defined.

Lemma memory_not_found_means_absent_witness :
  Databases._update Sample.potato_router (VInt 99) (Sample.named "c")
    Sample.potatoes = (inl NOT_FOUND, Sample.potatoes)
  ∧ ∀ r, r ∈ Sample.potatoes → r !! "id" ≠ Some (VInt 99).
Proof.
  assert (Hrun : Databases._update Sample.potato_router (VInt 99)
                   (Sample.named "c") Sample.potatoes
                 = (inl NOT_FOUND, Sample.potatoes))
    by (vm_compute; reflexivity).
  split; [exact Hrun|].
  exact (proj2 (memory_not_found_means_absent Sample.potato_router (VInt 99)
                  (Sample.named "c") Sample.potatoes Sample.potatoes
                  (or_intror (or_introl Hrun)))).
Defined.

Lemma tortoise_not_found_means_no_id_witness :
  let self := Tortoise.__init__ Sample.Carrot in
  Tortoise._update self (VInt 1) (Sample.named "z") Sample.carrots
  = (inl NOT_FOUND, Sample.carrots)
  ∧ ∀ r, r ∈ Sample.carrots → r !! "id" ≠ Some (VInt 1).
Proof.
  intros self.
  assert (Hrun : Tortoise._update self (VInt 1) (Sample.named "z")
                   Sample.carrots = (inl NOT_FOUND, Sample.carrots))
    by (vm_compute; reflexivity).
  assert (Hno_id : dict_exclude_unset (Sample.named "z") !! "id" = None)
    by (vm_compute; reflexivity).
  split; [exact Hrun|].
  exact (proj2 (tortoise_not_found_means_no_id self (VInt 1)
                  (Sample.named "z") Sample.carrots Sample.carrots
                  (or_intror (or_intror (conj Hno_id Hrun))))).
Defined.
